(** * OIDC relying-party core of docmost: a shallow embedding

    Sources embedded here:
    - [apps/server/src/core/auth/strategies/oidc.strategy.ts]
      (class [OidcStrategy]: [getClient], the patched [callback], [validate]);
    - the Passport based variant of the same class (module [PassportOidc]);
    - the React hook [useOidcAutoRedirect] (module [Gate]);
    - the controller and service fragments quoted in [OIDC_FIX_SUMMARY.md]
      (module [Controller]).

    JavaScript objects used as dictionaries are finite maps, thrown values
    are an explicit outcome, and every method is a state-passing function
    over the object it mutates and the outside world it talks to. *)

From stdpp Require Import base strings gmap list.

Open Scope string_scope.
Open Scope list_scope.

(** ** JavaScript values, truthiness, strings *)

(** The JSON values a claim, a check or a configuration entry can hold.
    A property that is not there ([undefined]) is a [None] lookup. *)
Inductive JsValue : Type :=
| JsNull
| JsBool (b : bool)
| JsNum (n : Z)
| JsStr (s : string).

(** [!!v] of JavaScript. *)
Definition truthy (v : JsValue) : bool :=
  match v with
  | JsNull => false
  | JsBool b => b
  | JsNum n => negb (n =? 0)%Z
  | JsStr s => negb (String.eqb s "")
  end.

(** Truthiness of a property read, [undefined] when absent. *)
Definition truthy_prop (o : option JsValue) : bool :=
  match o with
  | Some v => truthy v
  | None => false
  end.

(** Truthiness of a [string | undefined] (or [string | null]). *)
Definition truthy_str (o : option string) : bool :=
  match o with
  | Some s => negb (String.eqb s "")
  | None => false
  end.

(** The string behind a [string | undefined] once it is known truthy. *)
Definition narrowed (o : option string) : string := default "" o.

(** [hay.includes(needle)]. *)
Fixpoint includes (needle hay : string) : bool :=
  String.prefix needle hay ||
  match hay with
  | EmptyString => false
  | String _ rest => includes needle rest
  end.

(** ** Thrown values and outcomes *)

Inductive Thrown : Type :=
| UnauthorizedException (message : string)
| JsError (message : string)
| NonError (v : JsValue).

(** [error instanceof Error]: Nest's [HttpException] extends [Error]. *)
Definition instanceof_Error (error : Thrown) : bool :=
  match error with
  | UnauthorizedException _ | JsError _ => true
  | NonError _ => false
  end.

(** [error.message] of an [Error]. *)
Definition message_of (error : Thrown) : string :=
  match error with
  | UnauthorizedException m | JsError m => m
  | NonError _ => ""
  end.

Inductive Outcome (A : Type) : Type :=
| Returned (a : A)
| Threw (error : Thrown).
Arguments Returned {A} a.
Arguments Threw {A} error.

(** ** The error taxonomy of the design

    The server code throws [UnauthorizedException] everywhere; the kind is
    carried by the message. *)

Inductive ErrorKind : Type :=
| ConfigurationError
| DiscoveryError
| StateMismatchError
| ExchangeError
| MissingClaimError.

Definition kind_of (error : Thrown) : option ErrorKind :=
  match error with
  | UnauthorizedException m =>
      if String.eqb m "OIDC is not properly configured" then Some ConfigurationError
      else if String.prefix "Failed to discover OIDC issuer: " m then Some DiscoveryError
      else if String.eqb m "Email not provided by OIDC provider" then Some MissingClaimError
      else None
  | _ => None
  end.

(** ** Methods: state passing with exceptions *)

Definition M (S A : Type) : Type := S -> Outcome A * S.

Definition ret {S A} (a : A) : M S A := fun s => (Returned a, s).
Definition throw {S A} (error : Thrown) : M S A := fun s => (Threw error, s).
Definition bind {S A B} (m : M S A) (k : A -> M S B) : M S B :=
  fun s =>
    match m s with
    | (Returned a, s') => k a s'
    | (Threw error, s') => (Threw error, s')
    end.
Definition try_catch {S A} (body : M S A) (handler : Thrown -> M S A) : M S A :=
  fun s =>
    match body s with
    | (Returned a, s') => (Returned a, s')
    | (Threw error, s') => handler error s'
    end.
(** An awaited call into a service whose outcome is given. *)
Definition await {S A} (o : Outcome A) : M S A := fun s => (o, s).
Definition get {S} : M S S := fun s => (Returned s, s).
Definition modify {S} (f : S -> S) : M S unit := fun s => (Returned tt, f s).

Notation "'let!' x ':=' m 'in' k" := (bind m (fun x => k))
  (at level 10, x name, m at level 100, k at level 200).
Notation "m ';;' k" := (bind m (fun _ => k))
  (at level 100, k at level 200, right associativity).

(** ** The openid-client library and the identity provider behind it *)

Record IssuerMetadata : Type := {
  issuer : string;
  authorization_endpoint : string;
  token_endpoint : string;
  userinfo_endpoint : string }.

Record ClientMetadata : Type := {
  client_id : string;
  client_secret : string;
  redirect_uris : list string;
  response_types : list string;
  token_endpoint_auth_method : option string }.

Record TokenSet : Type := {
  access_token : option string;
  id_token : option string;
  refresh_token : option string }.

Record AuthorizationParameters : Type := {
  scope : option string;
  redirect_uri : option string;
  state : option string;
  prompt : option string }.

(** Every call into the library that reaches the provider, in order. *)
Inductive LibCall : Type :=
| CallDiscover (issuerUrl : string)
| CallCallback (redirectUri : string) (parameters : gmap string string)
    (checks : option (gmap string JsValue))
| CallUserinfo (accessToken : option string).

(** The outside world: the provider (and network) in some state [Idp], and
    the log of the calls made so far. *)
Record World (Idp : Type) : Type := {
  idp : Idp;
  calls : list LibCall }.
Arguments idp {Idp} w.
Arguments calls {Idp} w.
Arguments Build_World {Idp} idp calls.

(** What the library does, for any provider: [Issuer.discover], the
    [Client] constructor and the three client methods the repository uses.
    Nothing is assumed about them. *)
Record OpenidClient (Idp : Type) : Type := {
  lib_discover : string -> Idp -> Outcome IssuerMetadata * Idp;
  lib_construct : IssuerMetadata -> ClientMetadata -> option Thrown;
  lib_callback : IssuerMetadata -> ClientMetadata -> string ->
    gmap string string -> option (gmap string JsValue) ->
    Idp -> Outcome TokenSet * Idp;
  lib_userinfo : IssuerMetadata -> ClientMetadata -> option string ->
    Idp -> Outcome (gmap string JsValue) * Idp;
  lib_authorizationUrl : IssuerMetadata -> ClientMetadata ->
    AuthorizationParameters -> string }.
Arguments lib_discover {Idp} o.
Arguments lib_construct {Idp} o.
Arguments lib_callback {Idp} o.
Arguments lib_userinfo {Idp} o.
Arguments lib_authorizationUrl {Idp} o.

(** A [Client] object: its data and its (replaceable) methods. *)
Record Client (Idp : Type) : Type := {
  client_issuer : IssuerMetadata;
  client_metadata : ClientMetadata;
  callback : string -> gmap string string -> option (gmap string JsValue) ->
    M (World Idp) TokenSet;
  userinfo : option string -> M (World Idp) (gmap string JsValue);
  authorizationUrl : AuthorizationParameters -> string }.
Arguments client_issuer {Idp} c.
Arguments client_metadata {Idp} c.
Arguments callback {Idp} c.
Arguments userinfo {Idp} c.
Arguments authorizationUrl {Idp} c.
Arguments Build_Client {Idp}.

(** One logged call into the library. *)
Definition logged {Idp A} (call : LibCall) (f : Idp -> Outcome A * Idp) :
  M (World Idp) A :=
  fun w =>
    let (r, i) := f (idp w) in
    (r, {| idp := i; calls := calls w ++ [call] |}).

Section Library.
Context {Idp : Type} (lib : OpenidClient Idp).

(** [Issuer.discover(issuer)]. *)
Definition Issuer_discover (issuerUrl : string) : M (World Idp) IssuerMetadata :=
  logged (CallDiscover issuerUrl) (lib_discover lib issuerUrl).

(** The object the constructor builds, with the library's own methods. *)
Definition library_client (oidcIssuer : IssuerMetadata) (metadata : ClientMetadata) :
  Client Idp :=
  {| client_issuer := oidcIssuer;
     client_metadata := metadata;
     callback := fun redirectUri parameters checks =>
       logged (CallCallback redirectUri parameters checks)
         (lib_callback lib oidcIssuer metadata redirectUri parameters checks);
     userinfo := fun accessToken =>
       logged (CallUserinfo accessToken)
         (lib_userinfo lib oidcIssuer metadata accessToken);
     authorizationUrl := lib_authorizationUrl lib oidcIssuer metadata |}.

(** [new oidcIssuer.Client(metadata)]; the constructor may throw. *)
Definition new_Client (oidcIssuer : IssuerMetadata) (metadata : ClientMetadata) :
  M (World Idp) (Client Idp) :=
  match lib_construct lib oidcIssuer metadata with
  | Some error => throw error
  | None => ret (library_client oidcIssuer metadata)
  end.

End Library.

(** ** The environment service *)

Record EnvironmentService : Type := {
  getOidcIssuer : option string;
  getOidcClientId : option string;
  getOidcClientSecret : option string;
  getOidcRedirectUri : option string }.

(** The guard of [getClient]:
    [!issuer || !clientId || !clientSecret || !redirectUri]. *)
Definition not_configured (env : EnvironmentService) : bool :=
  negb (truthy_str (getOidcIssuer env)) || negb (truthy_str (getOidcClientId env))
  || negb (truthy_str (getOidcClientSecret env))
  || negb (truthy_str (getOidcRedirectUri env)).

(** A field of the configuration is missing: never set, or set empty. *)
Definition missing (field : option string) : Prop :=
  field = None \/ field = Some "".

Definition some_field_missing (env : EnvironmentService) : Prop :=
  missing (getOidcIssuer env) \/ missing (getOidcClientId env) \/
  missing (getOidcClientSecret env) \/ missing (getOidcRedirectUri env).

(** The message the [catch] block of [getClient] reports. *)
Definition reported_message (error : Thrown) : string :=
  if instanceof_Error error then message_of error else "Unknown error".

(** ** [OidcStrategy] *)

(** The object: its one private field, [undefined] until set. *)
Record Strategy (Idp : Type) : Type := { client : option (Client Idp) }.
Arguments client {Idp} s.
Arguments Build_Strategy {Idp} client.

(** A method of the strategy runs over the object and the world. *)
Definition Method (Idp A : Type) : Type := M (Strategy Idp * World Idp) A.

Definition lift {Idp A} (m : M (World Idp) A) : Method Idp A :=
  fun st =>
    let (r, w) := m (snd st) in (r, (fst st, w)).

Definition set_client {Idp} (c : Client Idp) : Method Idp unit :=
  modify (fun st => ({| client := Some c |}, snd st)).

(** [this.client.callback = f]. *)
Definition set_client_callback {Idp}
  (f : string -> gmap string string -> option (gmap string JsValue) ->
       M (World Idp) TokenSet) : Method Idp unit :=
  modify (fun st =>
    ({| client :=
          match client (fst st) with
          | Some c =>
              Some {| client_issuer := client_issuer c;
                      client_metadata := client_metadata c;
                      callback := f;
                      userinfo := userinfo c;
                      authorizationUrl := authorizationUrl c |}
          | None => None
          end |}, snd st)).

(** [{ ...checks, response_type: 'code' }]; spreading [undefined] gives
    the empty object. *)
Definition retry_checks (checks : option (gmap string JsValue)) :
  option (gmap string JsValue) :=
  Some (<["response_type" := JsStr "code"]> (default ∅ checks)).

(** The one failure the replacement recognises: an [Error] whose message
    includes ['iss missing']. *)
Definition iss_missing_signature (error : Thrown) : bool :=
  instanceof_Error error && includes "iss missing" (message_of error).

(** The replacement installed over [client.callback]. *)
Definition patched_callback {Idp}
  (originalCallback : string -> gmap string string ->
     option (gmap string JsValue) -> M (World Idp) TokenSet)
  (redirectUri : string) (parameters : gmap string string)
  (checks : option (gmap string JsValue)) : M (World Idp) TokenSet :=
  try_catch (originalCallback redirectUri parameters checks)
    (fun error =>
       if instanceof_Error error && includes "iss missing" (message_of error)
       then originalCallback redirectUri parameters (retry_checks checks)
       else throw error).

(** The world after one discovery call against the configured issuer. *)
Definition discovered {Idp} (env : EnvironmentService) (w : World Idp) (i : Idp) :
  World Idp :=
  {| idp := i; calls := calls w ++ [CallDiscover (narrowed (getOidcIssuer env))] |}.

(** A client with its [callback] replaced. *)
Definition with_callback {Idp} (c : Client Idp)
  (f : string -> gmap string string -> option (gmap string JsValue) ->
       M (World Idp) TokenSet) : Client Idp :=
  {| client_issuer := client_issuer c;
     client_metadata := client_metadata c;
     callback := f;
     userinfo := userinfo c;
     authorizationUrl := authorizationUrl c |}.

(** How far one turn of an [async] method gets: to its end, or to
    [await Issuer.discover(issuer)]. The request has gone out by then; its
    outcome is delivered when the call is resumed. *)
Inductive Turn (A : Type) : Type :=
| Finished (outcome : Outcome A)
| Suspended (discovery : Outcome IssuerMetadata).
Arguments Finished {A} outcome.
Arguments Suspended {A} discovery.

Module OidcStrategy.
Section Methods.
Context {Idp : Type} (lib : OpenidClient Idp) (env : EnvironmentService).

Definition getClient : Method Idp (Client Idp) :=
  let! this := get in
  match client (fst this) with
  | Some c => ret c
  | None =>
      let issuer := getOidcIssuer env in
      let clientId := getOidcClientId env in
      let clientSecret := getOidcClientSecret env in
      let redirectUri := getOidcRedirectUri env in
      if negb (truthy_str issuer) || negb (truthy_str clientId)
         || negb (truthy_str clientSecret) || negb (truthy_str redirectUri)
      then throw (UnauthorizedException "OIDC is not properly configured")
      else
        try_catch
          (let! oidcIssuer := lift (Issuer_discover lib (narrowed issuer)) in
           let! c := lift (new_Client lib oidcIssuer
                        {| client_id := narrowed clientId;
                           client_secret := narrowed clientSecret;
                           redirect_uris := [narrowed redirectUri];
                           response_types := ["code"];
                           token_endpoint_auth_method := Some "client_secret_post" |}) in
           set_client c ;;
           let originalCallback := callback c in
           set_client_callback (patched_callback originalCallback) ;;
           (* [return this.client]: the field was assigned just above *)
           let! this := get in
           match client (fst this) with
           | Some c' => ret c'
           | None => throw (JsError "this.client is undefined")
           end)
          (fun error =>
             let message :=
               if instanceof_Error error then message_of error else "Unknown error" in
             throw (UnauthorizedException
                      ("Failed to discover OIDC issuer: " +:+ message)))
  end.

(** [getClient] is [async]: other calls can run while it waits at
    [await Issuer.discover(issuer)]. Its first turn, up to the [await]. *)
Definition getClient_start (st : Strategy Idp * World Idp) :
  Turn (Client Idp) * (Strategy Idp * World Idp) :=
  match client (fst st) with
  | Some c => (Finished (Returned c), st)
  | None =>
      let issuer := getOidcIssuer env in
      let clientId := getOidcClientId env in
      let clientSecret := getOidcClientSecret env in
      let redirectUri := getOidcRedirectUri env in
      if negb (truthy_str issuer) || negb (truthy_str clientId)
         || negb (truthy_str clientSecret) || negb (truthy_str redirectUri)
      then (Finished (Threw (UnauthorizedException "OIDC is not properly configured")),
            st)
      else
        let (discovery, w) := Issuer_discover lib (narrowed issuer) (snd st) in
        (Suspended discovery, (fst st, w))
  end.

(** Its second turn, from the [await] to the end, on the object and the
    world as they are by then. *)
Definition getClient_resume (discovery : Outcome IssuerMetadata) :
  Method Idp (Client Idp) :=
  let clientId := getOidcClientId env in
  let clientSecret := getOidcClientSecret env in
  let redirectUri := getOidcRedirectUri env in
  try_catch
    (let! oidcIssuer := await discovery in
     let! c := lift (new_Client lib oidcIssuer
                  {| client_id := narrowed clientId;
                     client_secret := narrowed clientSecret;
                     redirect_uris := [narrowed redirectUri];
                     response_types := ["code"];
                     token_endpoint_auth_method := Some "client_secret_post" |}) in
     set_client c ;;
     let originalCallback := callback c in
     set_client_callback (patched_callback originalCallback) ;;
     let! this := get in
     match client (fst this) with
     | Some c' => ret c'
     | None => throw (JsError "this.client is undefined")
     end)
    (fun error =>
       let message :=
         if instanceof_Error error then message_of error else "Unknown error" in
       throw (UnauthorizedException
                ("Failed to discover OIDC issuer: " +:+ message))).

Definition validate (tokenSet : TokenSet) : Method Idp (gmap string JsValue) :=
  let! c := getClient in
  let! userinfo := lift (userinfo c (access_token tokenSet)) in
  if negb (truthy_prop (userinfo !! "email"))
  then throw (UnauthorizedException "Email not provided by OIDC provider")
  else ret userinfo.

(** The calls other components make on the object during the process. *)
Inductive Invocation : Type :=
| InvokeGetClient
| InvokeValidate (tokenSet : TokenSet).

Definition invoke (i : Invocation) : Method Idp unit :=
  match i with
  | InvokeGetClient => getClient ;; ret tt
  | InvokeValidate tokenSet => validate tokenSet ;; ret tt
  end.

(** The states the object goes through, from construction on, whatever
    the world does between two invocations. *)
Inductive reachable : Strategy Idp -> Prop :=
| reachable_new : reachable {| client := None |}
| reachable_invoke s w i :
    reachable s -> reachable (fst (snd (invoke i (s, w)))).

End Methods.
End OidcStrategy.

(** ** The Passport based variant of the same class

    Same [getClient] without the [token_endpoint_auth_method] entry and
    without the replaced [callback]; same [validate]. *)

Module PassportOidc.
Section Methods.
Context {Idp : Type} (lib : OpenidClient Idp) (env : EnvironmentService).

Definition getClient : Method Idp (Client Idp) :=
  let! this := get in
  match client (fst this) with
  | Some c => ret c
  | None =>
      let issuer := getOidcIssuer env in
      let clientId := getOidcClientId env in
      let clientSecret := getOidcClientSecret env in
      let redirectUri := getOidcRedirectUri env in
      if negb (truthy_str issuer) || negb (truthy_str clientId)
         || negb (truthy_str clientSecret) || negb (truthy_str redirectUri)
      then throw (UnauthorizedException "OIDC is not properly configured")
      else
        try_catch
          (let! oidcIssuer := lift (Issuer_discover lib (narrowed issuer)) in
           let! c := lift (new_Client lib oidcIssuer
                        {| client_id := narrowed clientId;
                           client_secret := narrowed clientSecret;
                           redirect_uris := [narrowed redirectUri];
                           response_types := ["code"];
                           token_endpoint_auth_method := None |}) in
           set_client c ;;
           (* [return this.client]: the field was assigned just above *)
           let! this := get in
           match client (fst this) with
           | Some c' => ret c'
           | None => throw (JsError "this.client is undefined")
           end)
          (fun error =>
             let message :=
               if instanceof_Error error then message_of error else "Unknown error" in
             throw (UnauthorizedException
                      ("Failed to discover OIDC issuer: " +:+ message)))
  end.

(** [getClient] is [async]: other calls can run while it waits at
    [await Issuer.discover(issuer)]. Its first turn, up to the [await]. *)
Definition getClient_start (st : Strategy Idp * World Idp) :
  Turn (Client Idp) * (Strategy Idp * World Idp) :=
  match client (fst st) with
  | Some c => (Finished (Returned c), st)
  | None =>
      let issuer := getOidcIssuer env in
      let clientId := getOidcClientId env in
      let clientSecret := getOidcClientSecret env in
      let redirectUri := getOidcRedirectUri env in
      if negb (truthy_str issuer) || negb (truthy_str clientId)
         || negb (truthy_str clientSecret) || negb (truthy_str redirectUri)
      then (Finished (Threw (UnauthorizedException "OIDC is not properly configured")),
            st)
      else
        let (discovery, w) := Issuer_discover lib (narrowed issuer) (snd st) in
        (Suspended discovery, (fst st, w))
  end.

(** Its second turn, from the [await] to the end, on the object and the
    world as they are by then. *)
Definition getClient_resume (discovery : Outcome IssuerMetadata) :
  Method Idp (Client Idp) :=
  let clientId := getOidcClientId env in
  let clientSecret := getOidcClientSecret env in
  let redirectUri := getOidcRedirectUri env in
  try_catch
    (let! oidcIssuer := await discovery in
     let! c := lift (new_Client lib oidcIssuer
                  {| client_id := narrowed clientId;
                     client_secret := narrowed clientSecret;
                     redirect_uris := [narrowed redirectUri];
                     response_types := ["code"];
                     token_endpoint_auth_method := None |}) in
     set_client c ;;
     let! this := get in
     match client (fst this) with
     | Some c' => ret c'
     | None => throw (JsError "this.client is undefined")
     end)
    (fun error =>
       let message :=
         if instanceof_Error error then message_of error else "Unknown error" in
       throw (UnauthorizedException
                ("Failed to discover OIDC issuer: " +:+ message))).

Definition validate (tokenSet : TokenSet) : Method Idp (gmap string JsValue) :=
  let! c := getClient in
  let! userinfo := lift (userinfo c (access_token tokenSet)) in
  if negb (truthy_prop (userinfo !! "email"))
  then throw (UnauthorizedException "Email not provided by OIDC provider")
  else ret userinfo.

(** The calls other components make on the object during the process. *)
Inductive Invocation : Type :=
| InvokeGetClient
| InvokeValidate (tokenSet : TokenSet).

Definition invoke (i : Invocation) : Method Idp unit :=
  match i with
  | InvokeGetClient => getClient ;; ret tt
  | InvokeValidate tokenSet => validate tokenSet ;; ret tt
  end.

(** The states the object goes through, from construction on, whatever
    the world does between two invocations. *)
Inductive reachable : Strategy Idp -> Prop :=
| reachable_new : reachable {| client := None |}
| reachable_invoke s w i :
    reachable s -> reachable (fst (snd (invoke i (s, w)))).

End Methods.
End PassportOidc.

(** ** The two variants side by side *)

Inductive Variant : Type := Current | Passport.

Definition getClient_of {Idp} (v : Variant) :
  OpenidClient Idp -> EnvironmentService -> Method Idp (Client Idp) :=
  match v with
  | Current => OidcStrategy.getClient
  | Passport => PassportOidc.getClient
  end.

Definition validate_of {Idp} (v : Variant) :
  OpenidClient Idp -> EnvironmentService -> TokenSet ->
  Method Idp (gmap string JsValue) :=
  match v with
  | Current => OidcStrategy.validate
  | Passport => PassportOidc.validate
  end.

Definition reachable_of {Idp} (v : Variant) :
  OpenidClient Idp -> EnvironmentService -> Strategy Idp -> Prop :=
  match v with
  | Current => OidcStrategy.reachable
  | Passport => PassportOidc.reachable
  end.

Definition getClient_start_of {Idp} (v : Variant) :
  OpenidClient Idp -> EnvironmentService -> Strategy Idp * World Idp ->
  Turn (Client Idp) * (Strategy Idp * World Idp) :=
  match v with
  | Current => OidcStrategy.getClient_start
  | Passport => PassportOidc.getClient_start
  end.

Definition getClient_resume_of {Idp} (v : Variant) :
  OpenidClient Idp -> EnvironmentService -> Outcome IssuerMetadata ->
  Method Idp (Client Idp) :=
  match v with
  | Current => OidcStrategy.getClient_resume
  | Passport => PassportOidc.getClient_resume
  end.

(** ** Calls of [getClient] in flight at the same time *)

(** What happens in the process, one turn at a time: a new call of
    [getClient] starts, or the call with a given number, waiting for its
    discovery, is resumed. Calls are numbered in the order they start. *)
Inductive Event : Type :=
| Call
| Resume (id : nat).

(** The process: the strategy object, the world, the calls waiting at
    their [await] with the outcome each will be handed, what each finished
    call returned (in the order they finished), and the next call number. *)
Record Process (Idp : Type) : Type := {
  object : Strategy Idp;
  world : World Idp;
  waiting : gmap nat (Outcome IssuerMetadata);
  returned : list (nat * Outcome (Client Idp));
  next : nat }.
Arguments object {Idp} p.
Arguments world {Idp} p.
Arguments waiting {Idp} p.
Arguments returned {Idp} p.
Arguments next {Idp} p.
Arguments Build_Process {Idp}.

Section Interleaving.
Context {Idp : Type} (v : Variant) (lib : OpenidClient Idp) (env : EnvironmentService).

Definition step (p : Process Idp) (e : Event) : Process Idp :=
  match e with
  | Call =>
      match getClient_start_of v lib env (object p, world p) with
      | (Finished outcome, st) =>
          {| object := fst st; world := snd st; waiting := waiting p;
             returned := returned p ++ [(next p, outcome)];
             next := S (next p) |}
      | (Suspended discovery, st) =>
          {| object := fst st; world := snd st;
             waiting := <[next p := discovery]> (waiting p);
             returned := returned p;
             next := S (next p) |}
      end
  | Resume id =>
      match waiting p !! id with
      | Some discovery =>
          let (outcome, st) :=
            getClient_resume_of v lib env discovery (object p, world p) in
          {| object := fst st; world := snd st;
             waiting := delete id (waiting p);
             returned := returned p ++ [(id, outcome)];
             next := next p |}
      | None => p
      end
  end.

Definition schedule (events : list Event) (p : Process Idp) : Process Idp :=
  fold_left step events p.

(** The process at its start, with no call made yet. *)
Definition launched (st : Strategy Idp * World Idp) : Process Idp :=
  {| object := fst st; world := snd st; waiting := ∅; returned := []; next := 0 |}.

(** The outcome a waiting call holds is what discovery answered in some
    state of the provider, under a complete configuration. *)
Definition answered_by_discovery (p : Process Idp) : Prop :=
  forall id discovery,
    waiting p !! id = Some discovery ->
    not_configured env = false /\
    exists i : Idp,
      fst (lib_discover lib (narrowed (getOidcIssuer env)) i) = discovery.


End Interleaving.

(** ** The client gate: [useOidcAutoRedirect] *)

Module Gate.

Record OidcStatus : Type := { enabled : bool }.

(** What the hook can touch: the two storages of the origin, the address
    the window is sent to, its own [isChecking] state and the console. *)
Record Browser : Type := {
  localStorage : gmap string string;
  sessionStorage : gmap string string;
  location_href : string;
  isChecking : bool;
  console : list (string * Thrown) }.

(** [new URLSearchParams(location.search)] is the list of the query's
    name and value pairs; [get] is the first value under a name, or [null]. *)
Definition URLSearchParams_get (params : list (string * string)) (name : string) :
  option string :=
  snd <$> List.find (fun kv => String.eqb (fst kv) name) params.

Definition setIsChecking (b : bool) : M Browser unit :=
  modify (fun w => {| localStorage := localStorage w;
                      sessionStorage := sessionStorage w;
                      location_href := location_href w;
                      isChecking := b;
                      console := console w |}).

Definition localStorage_clear : M Browser unit :=
  modify (fun w => {| localStorage := ∅;
                      sessionStorage := sessionStorage w;
                      location_href := location_href w;
                      isChecking := isChecking w;
                      console := console w |}).

Definition sessionStorage_clear : M Browser unit :=
  modify (fun w => {| localStorage := localStorage w;
                      sessionStorage := ∅;
                      location_href := location_href w;
                      isChecking := isChecking w;
                      console := console w |}).

(** [window.location.href = url]. *)
Definition assign_href (url : string) : M Browser unit :=
  modify (fun w => {| localStorage := localStorage w;
                      sessionStorage := sessionStorage w;
                      location_href := url;
                      isChecking := isChecking w;
                      console := console w |}).

Definition console_error (label : string) (error : Thrown) : M Browser unit :=
  modify (fun w => {| localStorage := localStorage w;
                      sessionStorage := sessionStorage w;
                      location_href := location_href w;
                      isChecking := isChecking w;
                      console := console w ++ [(label, error)] |}).

(** How a block ends: by falling through, or by [return]. *)
Inductive Completion : Type := Normal | Return.

Section Hook.
(** [location.search] as parsed, and the two services of [oidc-service]. *)
Context (search : list (string * string))
        (getOidcStatus : Outcome OidcStatus)
        (getOidcLoginUrl : string).

Definition checkOidcAndRedirect : M Browser unit :=
  let! c :=
    try_catch
      (let params := search in
       if truthy_str (URLSearchParams_get params "error")
       then setIsChecking false ;; ret Return
       else
         let! status := await getOidcStatus in
         if enabled status
         then
           localStorage_clear ;;
           sessionStorage_clear ;;
           assign_href getOidcLoginUrl ;;
           ret Return
         else ret Normal)
      (fun error =>
         console_error "Failed to check OIDC status:" error ;;
         ret Normal) in
  match c with
  | Return => ret tt
  | Normal => setIsChecking false
  end.

End Hook.

(** The hook as mounted: [useState(true)]. *)
Definition mounted (local session : gmap string string) (href : string) : Browser :=
  {| localStorage := local; sessionStorage := session; location_href := href;
     isChecking := true; console := [] |}.

End Gate.

(** ** The controller and the service, as quoted in the fix summary *)

Module Controller.

(** What a handler does to its reply, in order. *)
Inductive ReplyOp : Type :=
| ClearCookie (name : string)
| SetCookie (name value : string)
| Redirect (url : string).

Definition FastifyReply : Type := list ReplyOp.

Definition clearCookie (name : string) : M FastifyReply unit :=
  modify (fun res : FastifyReply => res ++ [ClearCookie name]).

(** Modelled from the spec: [setAuthCookie], whose body is not quoted;
    it issues the session cookie, whose name is [authToken]. *)
Definition setAuthCookie (authToken : string) : M FastifyReply unit :=
  modify (fun res : FastifyReply => res ++ [SetCookie "authToken" authToken]).

Definition redirect (url : string) : M FastifyReply unit :=
  modify (fun res : FastifyReply => res ++ [Redirect url]).

Record CallbackResult : Type := { authToken : string }.

(** Modelled from the spec: the part of [login] the summary leaves out
    ([... rest of login logic]): the reply is a redirect to the
    authorization URL, whose construction may fail. *)
Definition rest_of_login (authUrl : Outcome string) : M FastifyReply unit :=
  let! url := await authUrl in
  redirect url.

Definition login (authUrl : Outcome string) : M FastifyReply unit :=
  clearCookie "authToken" ;;
  rest_of_login authUrl.

(** [handleCallback] is the service's; the controller sees its outcome.
    [home] is where [... redirect to home] sends the browser. *)
Definition callback (handleCallback : Outcome CallbackResult) (home : string) :
  M FastifyReply unit :=
  let! result := await handleCallback in
  clearCookie "authToken" ;;
  setAuthCookie (authToken result) ;;
  redirect home.

(** [getAuthorizationUrl] of the service, over the client and the redirect
    URI it has at hand. *)
Definition getAuthorizationUrl {Idp} (client : Client Idp) (redirectUri : string)
  (state : string) : string :=
  let authUrl :=
    authorizationUrl client
      {| scope := Some "openid email profile";
         redirect_uri := Some redirectUri;
         state := Some state;
         prompt := Some "login" |} in
  authUrl.

(** *** The browser's side of the cookie protocol *)

(** The cookies a browser context holds, newest first. *)
Definition Jar : Type := list (string * string).

Definition drop_cookie (name : string) (jar : Jar) : Jar :=
  List.filter (fun c => negb (String.eqb (fst c) name)) jar.

Definition receive (jar : Jar) (op : ReplyOp) : Jar :=
  match op with
  | ClearCookie name => drop_cookie name jar
  | SetCookie name value => (name, value) :: drop_cookie name jar
  | Redirect _ => jar
  end.

(** The session cookies the browser would present. *)
Definition session_cookies (jar : Jar) : list string :=
  snd <$> List.filter (fun c => String.eqb (fst c) "authToken") jar.

Inductive Request : Type :=
| LoginRequest (authUrl : Outcome string)
| CallbackRequest (handleCallback : Outcome CallbackResult).

(** The reply to a request, whether the handler returned or threw. *)
Definition respond (home : string) (req : Request) : FastifyReply :=
  match req with
  | LoginRequest authUrl => snd (login authUrl [])
  | CallbackRequest handled => snd (callback handled home [])
  end.

Definition browse (home : string) (jar : Jar) (reqs : list Request) : Jar :=
  fold_left (fun j req => fold_left receive (respond home req) j) reqs jar.

End Controller.

(** ** The client gate as the design words it *)

(** The design's reading of the gate's clearing step: the keys the
    application namespace owns are gone from both storages, every other
    key is as it was. *)
Definition clears_own_keys_only (owned : string -> bool)
  (before after : Gate.Browser) : Prop :=
  forall k : string,
    (owned k = true ->
       Gate.localStorage after !! k = None /\
       Gate.sessionStorage after !! k = None) /\
    (owned k = false ->
       Gate.localStorage after !! k = Gate.localStorage before !! k /\
       Gate.sessionStorage after !! k = Gate.sessionStorage before !! k).

(** ** The callback validator and the login attempt of the design *)

Module Design.

Record UserProfile : Type := {
  email : string;
  name : option string;
  given_name : option string;
  family_name : option string;
  preferred_username : option string }.

(** What one token exchange can come to. *)
Inductive Exchange : Type :=
| Exchanged (tokens : TokenSet)
| IssuerClaimMissing
| ExchangeRejected.

(** The provider's two endpoints: the token exchange (strict, or with the
    issuer check relaxed) and userinfo. *)
Record Provider (P : Type) : Type := {
  token_exchange : bool -> string -> gmap string string -> P -> Exchange * P;
  userinfo_request : option string -> P -> gmap string JsValue * P }.
Arguments token_exchange {P} p.
Arguments userinfo_request {P} p.

(** The provider's state and the number of token exchanges attempted. *)
Record Net (P : Type) : Type := {
  provider : P;
  exchanges : nat }.
Arguments provider {P} n.
Arguments exchanges {P} n.
Arguments Build_Net {P} provider exchanges.

Definition string_claim (claims : gmap string JsValue) (k : string) : option string :=
  match claims !! k with
  | Some (JsStr v) => Some v
  | _ => None
  end.

Inductive Attempt : Type :=
| IDLE
| AWAITING_CALLBACK (issued : string)
| VALIDATED
| SESSION_ISSUED
| REJECTED.

Section Validator.
Context {P : Type} (idp : Provider P).

Definition attempt_exchange (relaxed : bool) (redirectUri : string)
  (rawCallbackParams : gmap string string) (n : Net P) : Exchange * Net P :=
  let (r, p) := token_exchange idp relaxed redirectUri rawCallbackParams (provider n) in
  (r, {| provider := p; exchanges := S (exchanges n) |}).

(** Modelled from the spec: the callback validator [exchangeAndValidate]
    (the service's callback handling, which is not among the sources), in
    its five steps: state check, strict exchange, one relaxed retry on a
    missing issuer claim, userinfo, required [email]. *)
Definition exchangeAndValidate (redirectUri : string)
  (rawCallbackParams : gmap string string) (expectedState : string)
  (n : Net P) : (ErrorKind + UserProfile) * Net P :=
  match rawCallbackParams !! "state" with
  | None => (inl StateMismatchError, n)
  | Some presented =>
      if negb (String.eqb presented expectedState)
      then (inl StateMismatchError, n)
      else
        let (strict, n1) := attempt_exchange false redirectUri rawCallbackParams n in
        let (final, n2) :=
          match strict with
          | IssuerClaimMissing => attempt_exchange true redirectUri rawCallbackParams n1
          | _ => (strict, n1)
          end in
        match final with
        | Exchanged tokens =>
            let (claims, p3) := userinfo_request idp (access_token tokens) (provider n2) in
            let n3 := {| provider := p3; exchanges := exchanges n2 |} in
            match string_claim claims "email" with
            | Some e =>
                if String.eqb e "" then (inl MissingClaimError, n3)
                else (inr {| email := e;
                             name := string_claim claims "name";
                             given_name := string_claim claims "given_name";
                             family_name := string_claim claims "family_name";
                             preferred_username :=
                               string_claim claims "preferred_username" |}, n3)
            | None => (inl MissingClaimError, n3)
            end
        | _ => (inl ExchangeError, n2)
        end
  end.

(** Modelled from the spec: [completeCallback] of the session transition
    manager: validate, resolve the local user (here: the session token
    [resolve] binds to the profile), invalidate the cookie, issue the new
    one. *)
Definition completeCallback (resolve : UserProfile -> string) (redirectUri : string)
  (rawCallbackParams : gmap string string) (expectedState : string)
  (st : Net P * Controller.FastifyReply) :
  (ErrorKind + string) * (Net P * Controller.FastifyReply) :=
  match exchangeAndValidate redirectUri rawCallbackParams expectedState (fst st) with
  | (inr profile, n) =>
      let token := resolve profile in
      (inr token,
       (n, snd st ++ [Controller.ClearCookie "authToken";
                      Controller.SetCookie "authToken" token]))
  | (inl e, n) => (inl e, (n, snd st))
  end.

(** The state the browser context's login attempt was issued, if it is
    still outstanding. *)
Definition outstanding (a : Attempt) : option string :=
  match a with
  | AWAITING_CALLBACK issued => Some issued
  | _ => None
  end.

(** Modelled from the spec: the callback endpoint over the login attempt
    of the browser context. Only an attempt awaiting its callback has an
    expected state; the callback consumes it either way. *)
Definition callbackEndpoint (resolve : UserProfile -> string) (redirectUri : string)
  (a : Attempt) (rawCallbackParams : gmap string string)
  (st : Net P * Controller.FastifyReply) :
  (ErrorKind + string) * Attempt * (Net P * Controller.FastifyReply) :=
  match outstanding a with
  | Some expectedState =>
      match completeCallback resolve redirectUri rawCallbackParams expectedState st with
      | (inr token, st') => (inr token, SESSION_ISSUED, st')
      | (inl e, st') => (inl e, REJECTED, st')
      end
  | None => (inl StateMismatchError, a, st)
  end.

(** Modelled from the spec: login initiation issues a fresh state and
    awaits the callback. *)
Definition prepareLogin (fresh : string) (a : Attempt) : Attempt :=
  AWAITING_CALLBACK fresh.

End Validator.

(** The callbacks the design rejects for their state: no [state], a
    [state] other than the expected one, no login initiated before, or a
    state already consumed. *)
Inductive bad_state : Attempt -> gmap string string -> Prop :=
| state_absent a params :
    params !! "state" = None -> bad_state a params
| state_different expected presented params :
    params !! "state" = Some presented -> presented <> expected ->
    bad_state (AWAITING_CALLBACK expected) params
| state_never_issued params : bad_state IDLE params
| state_consumed_session params : bad_state SESSION_ISSUED params
| state_consumed_rejected params : bad_state REJECTED params.

End Design.

(** ** A small provider and configuration, for the examples *)

Module Sample.

Definition metadata : IssuerMetadata :=
  {| issuer := "https://idp.example";
     authorization_endpoint := "https://idp.example/authorize";
     token_endpoint := "https://idp.example/token";
     userinfo_endpoint := "https://idp.example/userinfo" |}.

Definition tokens : TokenSet :=
  {| access_token := Some "at-1"; id_token := None; refresh_token := None |}.

(** The provider is up or down. When up it answers like a provider that
    leaves the issuer out of its response: the exchange fails with
    ['iss missing from the response'] unless a response type is among the
    checks. *)
Definition lib : OpenidClient bool :=
  {| lib_discover := fun _ (up : bool) =>
       (if up then Returned metadata
        else Threw (JsError "connect ECONNREFUSED"), up);
     lib_construct := fun _ _ => None;
     lib_callback := fun _ _ _ _ checks (up : bool) =>
       (match default ∅ checks !! "response_type" with
        | Some _ => Returned tokens
        | None => Threw (JsError "iss missing from the response")
        end, up);
     lib_userinfo := fun _ _ _ (up : bool) =>
       (Returned ({[ "email" := JsStr "b@example.com" ]} : gmap string JsValue), up);
     lib_authorizationUrl := fun iss meta p =>
       authorization_endpoint iss +:+ "?client_id=" +:+ client_id meta
       +:+ "&scope=" +:+ default "" (scope p)
       +:+ "&redirect_uri=" +:+ default "" (redirect_uri p)
       +:+ "&state=" +:+ default "" (state p)
       +:+ "&prompt=" +:+ default "" (prompt p) |}.

(** The same provider answering userinfo without an [email]. *)
Definition lib_no_email : OpenidClient bool :=
  {| lib_discover := lib_discover lib;
     lib_construct := lib_construct lib;
     lib_callback := lib_callback lib;
     lib_userinfo := fun _ _ _ (up : bool) =>
       (Returned (<["name" := JsStr "B"]> {[ "preferred_username" := JsStr "b" ]}
                  : gmap string JsValue), up);
     lib_authorizationUrl := lib_authorizationUrl lib |}.

Definition env : EnvironmentService :=
  {| getOidcIssuer := Some "https://idp.example";
     getOidcClientId := Some "abc";
     getOidcClientSecret := Some "s3cr3t";
     getOidcRedirectUri := Some "https://app.example/callback" |}.

(** The client secret was never set. *)
Definition env_no_secret : EnvironmentService :=
  {| getOidcIssuer := Some "https://idp.example";
     getOidcClientId := Some "abc";
     getOidcClientSecret := None;
     getOidcRedirectUri := Some "https://app.example/callback" |}.

Definition fresh : Strategy bool := {| client := None |}.
Definition up : World bool := {| idp := true; calls := [] |}.
Definition down : World bool := {| idp := false; calls := [] |}.

(** A design-level provider: the exchange succeeds for the code [good]. *)
Definition provider : Design.Provider unit :=
  {| Design.token_exchange := fun _ _ (params : gmap string string) (p : unit) =>
       (match params !! "code" with
        | Some "good" => Design.Exchanged tokens
        | _ => Design.ExchangeRejected
        end, p);
     Design.userinfo_request := fun _ (p : unit) =>
       (({[ "email" := JsStr "b@example.com" ]} : gmap string JsValue), p) |}.

End Sample.

(** ** Notions used to state further properties of the code *)

(** The options [getClient] passes to the [Client] constructor: the
    Passport variant leaves [token_endpoint_auth_method] out. *)
Definition configured_metadata (v : Variant) (env : EnvironmentService) :
  ClientMetadata :=
  {| client_id := narrowed (getOidcClientId env);
     client_secret := narrowed (getOidcClientSecret env);
     redirect_uris := [narrowed (getOidcRedirectUri env)];
     response_types := ["code"];
     token_endpoint_auth_method :=
       match v with
       | Current => Some "client_secret_post"
       | Passport => None
       end |}.

(** The object [getClient] hands out for an issuer: the library's client,
    with [callback] replaced in the current variant only. *)
Definition handed_out {Idp} (v : Variant) (lib : OpenidClient Idp)
  (oidcIssuer : IssuerMetadata) (metadata : ClientMetadata) : Client Idp :=
  match v with
  | Current =>
      with_callback (library_client lib oidcIssuer metadata)
        (patched_callback (callback (library_client lib oidcIssuer metadata)))
  | Passport => library_client lib oidcIssuer metadata
  end.

(** The library calls one [getClient] adds to the log. *)
Definition discovery_calls {Idp} (env : EnvironmentService) (s : Strategy Idp) :
  list LibCall :=
  match client s with
  | Some _ => []
  | None =>
      if not_configured env then []
      else [CallDiscover (narrowed (getOidcIssuer env))]
  end.

(** [needle] occurs in [hay] as a run of consecutive characters. *)
Definition occurs_in (needle hay : string) : Prop :=
  exists before after : string, hay = before +:+ needle +:+ after.

(** Whether the gate sends the window to the login URL. *)
Definition redirects (search : list (string * string))
  (getOidcStatus : Outcome Gate.OidcStatus) : bool :=
  negb (truthy_str (Gate.URLSearchParams_get search "error")) &&
  match getOidcStatus with
  | Returned status => Gate.enabled status
  | Threw _ => false
  end.

(** More providers for the examples. *)
Module Sample2.

(** The constructor rejects the options. *)
Definition lib_rejecting : OpenidClient bool :=
  {| lib_discover := lib_discover Sample.lib;
     lib_construct := fun _ _ => Some (JsError "client_id is required");
     lib_callback := lib_callback Sample.lib;
     lib_userinfo := lib_userinfo Sample.lib;
     lib_authorizationUrl := lib_authorizationUrl Sample.lib |}.

(** The userinfo endpoint refuses the token. *)
Definition lib_userinfo_refused : OpenidClient bool :=
  {| lib_discover := lib_discover Sample.lib;
     lib_construct := lib_construct Sample.lib;
     lib_callback := lib_callback Sample.lib;
     lib_userinfo := fun _ _ _ (up : bool) =>
       (Threw (JsError "expected 200 OK, got: 401 Unauthorized"), up);
     lib_authorizationUrl := lib_authorizationUrl Sample.lib |}.

(** The userinfo endpoint answers with [email: null]. *)
Definition lib_null_email : OpenidClient bool :=
  {| lib_discover := lib_discover Sample.lib;
     lib_construct := lib_construct Sample.lib;
     lib_callback := lib_callback Sample.lib;
     lib_userinfo := fun _ _ _ (up : bool) =>
       (Returned (<["email" := JsNull]> {[ "name" := JsStr "B" ]}
                  : gmap string JsValue), up);
     lib_authorizationUrl := lib_authorizationUrl Sample.lib |}.

(** Discovery rejects with a bare string instead of an [Error]. *)
Definition lib_throwing_string : OpenidClient bool :=
  {| lib_discover := fun _ (up : bool) => (Threw (NonError (JsStr "timeout")), up);
     lib_construct := lib_construct Sample.lib;
     lib_callback := lib_callback Sample.lib;
     lib_userinfo := lib_userinfo Sample.lib;
     lib_authorizationUrl := lib_authorizationUrl Sample.lib |}.

End Sample2.

(** A provider whose metadata changes between two discoveries (its token
    endpoint moves); its state is the number of discoveries served. *)
Module Rotating.

Definition metadata (served : nat) : IssuerMetadata :=
  {| issuer := "https://idp.example";
     authorization_endpoint := "https://idp.example/authorize";
     token_endpoint :=
       if Nat.eqb served 0 then "https://idp.example/token"
       else "https://idp.example/v2/token";
     userinfo_endpoint := "https://idp.example/userinfo" |}.

Definition lib : OpenidClient nat :=
  {| lib_discover := fun _ (served : nat) => (Returned (metadata served), S served);
     lib_construct := fun _ _ => None;
     lib_callback := fun _ _ _ _ _ (served : nat) => (Returned Sample.tokens, served);
     lib_userinfo := fun _ _ _ (served : nat) =>
       (Returned ({[ "email" := JsStr "b@example.com" ]} : gmap string JsValue),
        served);
     lib_authorizationUrl := fun iss _ _ => authorization_endpoint iss |}.

Definition fresh : Strategy nat * World nat :=
  ({| client := None |}, {| idp := 0; calls := [] |}).

End Rotating.

(** A library callback that validates the way a strict one does, with the
    cause of each failure kept apart from its message. The provider's state
    says whether its responses carry the issuer. *)
Module Strict.

Inductive Failure : Type :=
| IssuerMissing
| StateMismatch (expected got : string).

(** The messages the failures are reported with. *)
Definition message (f : Failure) : string :=
  match f with
  | IssuerMissing => "iss missing from the response"
  | StateMismatch expected got =>
      "state mismatch, expected " +:+ expected +:+ ", got: " +:+ got
  end.

(** The state is checked first, then the presence of the issuer. *)
Definition validation (parameters : gmap string string)
  (checks : option (gmap string JsValue)) (carries_issuer : bool) : option Failure :=
  let expected :=
    match default ∅ checks !! "state" with
    | Some (JsStr s) => s
    | _ => ""
    end in
  let got := default "" (parameters !! "state") in
  if negb (String.eqb got expected) then Some (StateMismatch expected got)
  else if carries_issuer then None
  else Some IssuerMissing.

Definition lib : OpenidClient bool :=
  {| lib_discover := fun _ (carries_issuer : bool) =>
       (Returned Sample.metadata, carries_issuer);
     lib_construct := fun _ _ => None;
     lib_callback := fun _ _ _ parameters checks (carries_issuer : bool) =>
       (match validation parameters checks carries_issuer with
        | None => Returned Sample.tokens
        | Some f => Threw (JsError (message f))
        end, carries_issuer);
     lib_userinfo := lib_userinfo Sample.lib;
     lib_authorizationUrl := lib_authorizationUrl Sample.lib |}.

(** The retry as the design words it, on this library: the callback of the
    client [getClient] hands out asks the library a second time only when
    the first failure was the missing issuer. *)
Definition retries_only_on_missing_issuer : Prop :=
  forall (c : Client bool) st1 (redirectUri : string)
         (parameters : gmap string string) (checks : option (gmap string JsValue))
         (w0 : World bool),
    OidcStrategy.getClient lib Sample.env (Sample.fresh, Sample.up) = (Returned c, st1) ->
    length (calls (snd (callback c redirectUri parameters checks w0)))
      = length (calls w0) + 2 ->
    validation parameters checks (idp w0) = Some IssuerMissing.

End Strict.

(** * Properties *)

(** ** Strings *)

Lemma prefix_append (p s : string) : String.prefix p (p +:+ s) = true.
Proof.
  induction p as [|a p IH]; simpl.
  - now destruct s.
  - destruct (Ascii.ascii_dec a a) as [_|n]; [exact IH | now elim n].
Qed.

Lemma kind_of_discovery (m : string) :
  kind_of (UnauthorizedException ("Failed to discover OIDC issuer: " +:+ m))
    = Some DiscoveryError.
Proof.
  unfold kind_of.
  rewrite (prefix_append "Failed to discover OIDC issuer: " m).
  reflexivity.
Qed.

Example includes_signature :
  includes "iss missing" "iss missing from the response" = true /\
  includes "iss missing" "state mismatch, expected xyz, got: abc" = false /\
  includes "" "" = true.
Proof. repeat split. Qed.

Example search_params_get :
  Gate.URLSearchParams_get [("page", "2"); ("error", "access_denied")] "error"
    = Some "access_denied" /\
  Gate.URLSearchParams_get [("page", "2")] "error" = None.
Proof. split; reflexivity. Qed.

Lemma prefix_occurs (p s : string) :
  String.prefix p s = true <-> exists rest : string, s = p +:+ rest.
Proof.
  revert s. induction p as [|a p IH]; intros s; simpl.
  - split; [intros _; now exists s | now destruct s].
  - destruct s as [|b s]; [split; [discriminate | now intros [rest H]]|].
    simpl. destruct (Ascii.ascii_dec a b) as [<-|Hne].
    + split.
      * intros H. destruct (proj1 (IH s) H) as [rest ->]. now exists rest.
      * intros [rest H]. apply (proj2 (IH s)). exists rest. now injection H.
    + split; [discriminate|]. intros [rest H]. injection H as H _. now elim Hne.
Qed.

Lemma includes_occurs (needle hay : string) :
  includes needle hay = true <-> occurs_in needle hay.
Proof.
  unfold occurs_in. induction hay as [|a hay IH].
  - cbn [includes]. rewrite orb_false_r, prefix_occurs. split.
    + intros [rest H]. now exists "", rest.
    + intros (before & after & H). destruct before; [now exists after|discriminate].
  - cbn [includes]. rewrite orb_true_iff, prefix_occurs, IH. split.
    + intros [[rest H] | (before & after & H)].
      * now exists "", rest.
      * exists (String a before), after. simpl. now rewrite H.
    + intros (before & after & H). destruct before as [|b before].
      * left. now exists after.
      * right. exists before, after. simpl in H. now injection H.
Qed.

Lemma truthy_str_false (o : option string) :
  truthy_str o = false <-> o = None \/ o = Some "".
Proof.
  destruct o as [s|]; simpl.
  - destruct (String.eqb_spec s ""); subst; split; intros H; try discriminate; auto.
    destruct H as [H|H]; [discriminate | congruence].
  - split; auto.
Qed.

(** ** [getClient] *)

Section GetClient.
Context {Idp : Type} (lib : OpenidClient Idp) (env : EnvironmentService).

Lemma not_configured_iff : not_configured env = true <-> some_field_missing env.
Proof.
  unfold not_configured, some_field_missing, missing.
  rewrite !orb_true_iff, !negb_true_iff, !truthy_str_false. tauto.
Qed.


Lemma getClient_cached s w c :
  client s = Some c ->
  OidcStrategy.getClient lib env (s, w) = (Returned c, (s, w)).
Proof.
  intros Hc. unfold OidcStrategy.getClient, bind, get, ret. simpl.
  now rewrite Hc.
Qed.

Lemma getClient_unconfigured s w :
  client s = None -> not_configured env = true ->
  OidcStrategy.getClient lib env (s, w) =
    (Threw (UnauthorizedException "OIDC is not properly configured"), (s, w)).
Proof.
  intros Hc Hn. unfold OidcStrategy.getClient, bind, get, throw. simpl.
  rewrite Hc. unfold not_configured in Hn. now rewrite Hn.
Qed.

Lemma getClient_discovery_failed s w error i :
  client s = None -> not_configured env = false ->
  lib_discover lib (narrowed (getOidcIssuer env)) (idp w) = (Threw error, i) ->
  OidcStrategy.getClient lib env (s, w) =
    (Threw (UnauthorizedException
              ("Failed to discover OIDC issuer: " +:+ reported_message error)),
     (s, discovered env w i)).
Proof.
  intros Hc Hn Hd. unfold OidcStrategy.getClient, bind, get, throw. simpl.
  rewrite Hc. unfold not_configured in Hn. rewrite Hn.
  unfold try_catch, bind, lift, Issuer_discover, logged. simpl.
  rewrite Hd. now destruct s.
Qed.

(** A call on a fresh object that returns went through discovery, and
    returns the library's client with the replaced [callback], now cached. *)
Lemma getClient_fresh s w c st1 :
  client s = None ->
  OidcStrategy.getClient lib env (s, w) = (Returned c, st1) ->
  exists oidcIssuer metadata i,
    lib_discover lib (narrowed (getOidcIssuer env)) (idp w) = (Returned oidcIssuer, i) /\
    c = with_callback (library_client lib oidcIssuer metadata)
          (patched_callback (callback (library_client lib oidcIssuer metadata))) /\
    st1 = ({| client := Some c |}, discovered env w i).
Proof.
  intros Hc. unfold OidcStrategy.getClient, bind, get, throw. simpl.
  rewrite Hc.
  destruct (negb _ || _ || _ || _); [discriminate|].
  unfold try_catch, bind, lift, Issuer_discover, logged, new_Client. simpl.
  destruct (lib_discover lib _ (idp w)) as [[oidcIssuer|error] i]; simpl;
    [|discriminate].
  destruct (lib_construct lib oidcIssuer _) as [error|]; simpl; [discriminate|].
  intros H. injection H as <- <-.
  eexists oidcIssuer, _, i. split; [reflexivity|]. split; reflexivity.
Qed.

(** A call that throws leaves the object as it was. *)
Lemma getClient_threw s w error st1 :
  OidcStrategy.getClient lib env (s, w) = (Threw error, st1) ->
  fst st1 = s.
Proof.
  destruct (client s) as [c0|] eqn:Hc.
  - now rewrite (getClient_cached _ _ _ Hc).
  - unfold OidcStrategy.getClient, bind, get, throw. simpl. rewrite Hc.
    destruct (negb _ || _ || _ || _); [now intros [= _ <-]|].
    unfold try_catch, bind, lift, Issuer_discover, logged, new_Client. simpl.
    destruct (lib_discover lib _ (idp w)) as [[oidcIssuer|e] j]; simpl.
    + destruct (lib_construct lib oidcIssuer _); simpl; [|discriminate].
      now intros [= _ <-].
    + now intros [= _ <-].
Qed.

(** Whatever the object was, a call that returns leaves its result cached. *)
Lemma getClient_returned s w c st1 :
  OidcStrategy.getClient lib env (s, w) = (Returned c, st1) ->
  client (fst st1) = Some c.
Proof.
  destruct (client s) as [c0|] eqn:Hc.
  - rewrite (getClient_cached _ _ _ Hc). intros H. now injection H as <- <-.
  - intros H. destruct (getClient_fresh _ _ _ _ Hc H) as (? & ? & ? & _ & _ & ->).
    reflexivity.
Qed.

(** A call never empties the cache, and never replaces what it holds. *)
Lemma getClient_keeps s w c :
  client s = Some c ->
  fst (snd (OidcStrategy.getClient lib env (s, w))) = s.
Proof. intros Hc. now rewrite (getClient_cached _ _ _ Hc). Qed.

Lemma validate_keeps s w c tokenSet :
  client s = Some c ->
  fst (snd (OidcStrategy.validate lib env tokenSet (s, w))) = s.
Proof.
  intros Hc. unfold OidcStrategy.validate, bind.
  rewrite (getClient_cached _ _ _ Hc). unfold lift. simpl.
  destruct (userinfo c _ w) as [[claims|error] w']; simpl; [|reflexivity].
  now destruct (negb _).
Qed.

Lemma invoke_keeps s w c i :
  client s = Some c ->
  fst (snd (OidcStrategy.invoke lib env i (s, w))) = s.
Proof.
  intros Hc. destruct i as [|tokenSet]; unfold OidcStrategy.invoke, bind.
  - now rewrite (getClient_cached _ _ _ Hc).
  - pose proof (validate_keeps s w c tokenSet Hc) as H.
    destruct (OidcStrategy.validate lib env tokenSet (s, w)) as [[a|e] st']; exact H.
Qed.

(** *** The Passport variant *)

Lemma passport_getClient_cached s w c :
  client s = Some c ->
  PassportOidc.getClient lib env (s, w) = (Returned c, (s, w)).
Proof.
  intros Hc. unfold PassportOidc.getClient, bind, get, ret. simpl.
  now rewrite Hc.
Qed.

Lemma passport_getClient_unconfigured s w :
  client s = None -> not_configured env = true ->
  PassportOidc.getClient lib env (s, w) =
    (Threw (UnauthorizedException "OIDC is not properly configured"), (s, w)).
Proof.
  intros Hc Hn. unfold PassportOidc.getClient, bind, get, throw. simpl.
  rewrite Hc. unfold not_configured in Hn. now rewrite Hn.
Qed.

(** *** Both variants *)

Lemma getClient_of_cached v s w c :
  client s = Some c ->
  getClient_of v lib env (s, w) = (Returned c, (s, w)).
Proof.
  destruct v; [apply getClient_cached | apply passport_getClient_cached].
Qed.

Lemma getClient_of_unconfigured v s w :
  client s = None -> not_configured env = true ->
  getClient_of v lib env (s, w) =
    (Threw (UnauthorizedException "OIDC is not properly configured"), (s, w)).
Proof.
  destruct v; [apply getClient_unconfigured | apply passport_getClient_unconfigured].
Qed.

(** [validate] is [getClient], then [userinfo], then the [email] test. *)
Lemma validate_of_unfold v tokenSet st :
  validate_of v lib env tokenSet st =
    match getClient_of v lib env st with
    | (Returned c, st1) =>
        match userinfo c (access_token tokenSet) (snd st1) with
        | (Returned claims, w2) =>
            (if negb (truthy_prop (claims !! "email"))
             then Threw (UnauthorizedException "Email not provided by OIDC provider")
             else Returned claims, (fst st1, w2))
        | (Threw error, w2) => (Threw error, (fst st1, w2))
        end
    | (Threw error, st1) => (Threw error, st1)
    end.
Proof.
  destruct v; simpl;
    unfold OidcStrategy.validate, PassportOidc.validate, bind, lift, throw, ret.
  - destruct (OidcStrategy.getClient lib env st) as [[c|e] st1]; [|reflexivity].
    destruct (userinfo c _ (snd st1)) as [[claims|e] w2]; [|reflexivity].
    now destruct (negb _).
  - destruct (PassportOidc.getClient lib env st) as [[c|e] st1]; [|reflexivity].
    destruct (userinfo c _ (snd st1)) as [[claims|e] w2]; [|reflexivity].
    now destruct (negb _).
Qed.

(** With a field missing the cache is never filled. *)
Lemma unconfigured_never_cached v s :
  not_configured env = true ->
  reachable_of v lib env s -> client s = None.
Proof.
  intros Hn Hr. destruct v; simpl in Hr.
  - induction Hr as [|s w i Hr IH]; [reflexivity|].
    destruct i as [|tokenSet]; unfold OidcStrategy.invoke, bind.
    + now rewrite (getClient_unconfigured _ _ IH Hn).
    + pose proof (validate_of_unfold Current tokenSet (s, w)) as E.
      cbn [validate_of] in E. rewrite E.
      rewrite (getClient_of_unconfigured Current _ _ IH Hn). exact IH.
  - induction Hr as [|s w i Hr IH]; [reflexivity|].
    destruct i as [|tokenSet]; unfold PassportOidc.invoke, bind.
    + now rewrite (passport_getClient_unconfigured _ _ IH Hn).
    + pose proof (validate_of_unfold Passport tokenSet (s, w)) as E.
      cbn [validate_of] in E. rewrite E.
      rewrite (getClient_of_unconfigured Passport _ _ IH Hn). exact IH.
Qed.

End GetClient.

(** Runs a method of the strategy on a given object and world. *)
Ltac run_method :=
  unfold OidcStrategy.validate, PassportOidc.validate,
    OidcStrategy.getClient, PassportOidc.getClient, bind, get, try_catch;
  simpl.

(** ** The discovery cache *)

(** *** Calls in flight *)

Section InFlight.
Context {Idp : Type} (v : Variant) (lib : OpenidClient Idp) (env : EnvironmentService).

(** A call that nothing interleaves with is its two turns in a row. *)
Lemma getClient_of_split (st : Strategy Idp * World Idp) :
  getClient_of v lib env st =
    match getClient_start_of v lib env st with
    | (Finished outcome, st') => (outcome, st')
    | (Suspended discovery, st') => getClient_resume_of v lib env discovery st'
    end.
Proof.
  destruct st as [s w]. destruct v; simpl;
    unfold OidcStrategy.getClient, OidcStrategy.getClient_start,
      OidcStrategy.getClient_resume, PassportOidc.getClient,
      PassportOidc.getClient_start, PassportOidc.getClient_resume,
      bind, get, ret, throw; simpl;
    (destruct (client s); [reflexivity|]);
    (destruct (negb _ || _ || _ || _); [reflexivity|]);
    unfold try_catch, bind, lift, await, Issuer_discover, logged; simpl;
    now destruct (lib_discover lib _ (idp w)) as [[oidcIssuer|error] i].
Qed.

Lemma getClient_start_cached s w c :
  client s = Some c ->
  getClient_start_of v lib env (s, w) = (Finished (Returned c), (s, w)).
Proof.
  intros Hc. destruct v; simpl;
    unfold OidcStrategy.getClient_start, PassportOidc.getClient_start; simpl;
    now rewrite Hc.
Qed.

(** A first turn that ends the call with a client found it in the cache,
    and leaves it there. *)
Lemma getClient_start_returned st c st' :
  getClient_start_of v lib env st = (Finished (Returned c), st') ->
  client (fst st') = Some c.
Proof.
  destruct st as [s w]. destruct v; simpl;
    unfold OidcStrategy.getClient_start, PassportOidc.getClient_start; simpl;
    (destruct (client s) as [c0|] eqn:Hc;
     [intros [= <- <-]; exact Hc|]);
    (destruct (negb _ || _ || _ || _); [discriminate|]);
    now destruct (Issuer_discover lib _ w).
Qed.

(** A second turn that returns a client has put it in the cache, whatever
    the cache held. *)
Lemma getClient_resume_returned discovery st c st' :
  getClient_resume_of v lib env discovery st = (Returned c, st') ->
  client (fst st') = Some c.
Proof.
  destruct st as [s w]. destruct v; simpl;
    unfold OidcStrategy.getClient_resume, PassportOidc.getClient_resume,
      try_catch, bind, lift, await, new_Client; simpl;
    (destruct discovery as [oidcIssuer|error]; simpl; [|discriminate]);
    (destruct (lib_construct lib oidcIssuer _); simpl; [discriminate|]);
    now intros [= <- <-].
Qed.

Lemma step_returned_cached (p : Process Idp) (e : Event) id c :
  returned (step v lib env p e) = returned p ++ [(id, Returned c)] ->
  client (object (step v lib env p e)) = Some c.
Proof.
  assert (Hno : forall l : list (nat * Outcome (Client Idp)),
             l = l ++ [(id, Returned c)] -> False).
  { intros l H. apply (f_equal length) in H. rewrite length_app in H.
    simpl in H. lia. }
  destruct e as [|k]; simpl.
  - destruct (getClient_start_of v lib env (object p, world p))
      as [[outcome|discovery] st'] eqn:Hs; simpl.
    + intros H%app_inv_head. injection H as _ ->.
      exact (getClient_start_returned _ _ _ Hs).
    + intros H. now apply Hno in H.
  - destruct (waiting p !! k) as [discovery|]; [|intros H; now apply Hno in H].
    destruct (getClient_resume_of v lib env discovery (object p, world p))
      as [outcome st'] eqn:Hr; simpl.
    intros H%app_inv_head. injection H as _ ->.
    exact (getClient_resume_returned _ _ _ _ Hr).
Qed.

(** With a client cached and no call waiting, nothing that follows
    changes the object or the world, and every call returns that client. *)
Lemma schedule_cache_stable (later : list Event) : forall (p : Process Idp) c,
  client (object p) = Some c ->
  waiting p = ∅ ->
  let p' := schedule v lib env later p in
  object p' = object p /\ world p' = world p /\ waiting p' = ∅ /\
  returned p' =
    returned p ++
    map (fun k => (k, Returned c))
      (seq (next p)
         (length (List.filter
                    (fun e => match e with Call => true | Resume _ => false end)
                    later))).
Proof.
  induction later as [|e later IH]; intros p c Hc Hw; simpl.
  - repeat split; [exact Hw | now rewrite app_nil_r].
  - destruct e as [|k].
    + pose proof (getClient_start_cached (object p) (world p) c Hc) as Hs.
      specialize (IH (step v lib env p Call) c).
      unfold schedule in IH |- *. simpl in IH |- *. rewrite Hs in IH |- *.
      simpl in IH |- *. destruct (IH Hc Hw) as (Ho & Hwo & Hwa & Hr).
      repeat split; try assumption.
      rewrite Hr, <- app_assoc. reflexivity.
    + specialize (IH p c Hc Hw).
      unfold schedule in IH |- *. simpl. rewrite Hw, lookup_empty. exact IH.
Qed.

End InFlight.




(** C6: when discovery against the issuer URL fails, [getClient] throws the
    discovery error for that call, the cache stays unset (the object is as
    it was), and the call has asked the library for discovery exactly once;
    the next call, whenever it comes, runs discovery again. *)
Theorem getClient_discovery_error {Idp} (lib : OpenidClient Idp)
  (env : EnvironmentService) (s : Strategy Idp) (w : World Idp)
  (error : Thrown) (i : Idp) :
  client s = None ->
  not_configured env = false ->
  lib_discover lib (narrowed (getOidcIssuer env)) (idp w) = (Threw error, i) ->
  let thrown := UnauthorizedException
                  ("Failed to discover OIDC issuer: " +:+ reported_message error) in
  OidcStrategy.getClient lib env (s, w) =
    (Threw thrown,
     (s, {| idp := i;
            calls := calls w ++ [CallDiscover (narrowed (getOidcIssuer env))] |})) /\
  kind_of thrown = Some DiscoveryError /\
  forall w2 : World Idp,
    exists r i2,
      lib_discover lib (narrowed (getOidcIssuer env)) (idp w2) = (r, i2) /\
      snd (snd (OidcStrategy.getClient lib env (s, w2))) =
        {| idp := i2;
           calls := calls w2 ++ [CallDiscover (narrowed (getOidcIssuer env))] |}.
Proof.
  intros Hc Hn Hd thrown. split; [|split].
  - exact (getClient_discovery_failed lib env s w error i Hc Hn Hd).
  - apply kind_of_discovery.
  - intros w2.
    destruct (lib_discover lib (narrowed (getOidcIssuer env)) (idp w2))
      as [r i2] eqn:Hd2.
    exists r, i2. split; [reflexivity|].
    destruct r as [oidcIssuer|error2].
    + unfold OidcStrategy.getClient, bind, get, throw. simpl.
      rewrite Hc. unfold not_configured in Hn. rewrite Hn.
      unfold try_catch, bind, lift, Issuer_discover, logged, new_Client. simpl.
      rewrite Hd2. simpl.
      now destruct (lib_construct lib oidcIssuer _).
    + now rewrite (getClient_discovery_failed lib env s w2 error2 i2 Hc Hn Hd2).
Qed.

Lemma getClient_discovery_error_witness :
  OidcStrategy.getClient Sample.lib Sample.env (Sample.fresh, Sample.down) =
    (Threw (UnauthorizedException
              "Failed to discover OIDC issuer: connect ECONNREFUSED"),
     (Sample.fresh,
      {| idp := false; calls := [CallDiscover "https://idp.example"] |})).
Proof.
  refine (proj1 (getClient_discovery_error Sample.lib Sample.env Sample.fresh
                   Sample.down (JsError "connect ECONNREFUSED") false _ _ _));
    reflexivity.
Defined.

(** C7: with any required field of the configuration missing (issuer URL,
    client id, client secret or redirect URI), [getClient] throws the
    configuration error, in every state the object can be in, and the world
    is untouched: the failure comes before any discovery. Both variants of
    the class. *)
Theorem getClient_configuration_error {Idp} (v : Variant) (lib : OpenidClient Idp)
  (env : EnvironmentService) (s : Strategy Idp) (w : World Idp) :
  some_field_missing env ->
  reachable_of v lib env s ->
  getClient_of v lib env (s, w) =
    (Threw (UnauthorizedException "OIDC is not properly configured"), (s, w)) /\
  kind_of (UnauthorizedException "OIDC is not properly configured")
    = Some ConfigurationError.
Proof.
  intros Hm Hr. apply not_configured_iff in Hm.
  split; [|reflexivity].
  apply getClient_of_unconfigured; [|exact Hm].
  exact (unconfigured_never_cached lib env v s Hm Hr).
Qed.

Lemma getClient_configuration_error_witness :
  let s := fst (snd (OidcStrategy.invoke Sample.lib Sample.env_no_secret
                       (OidcStrategy.InvokeValidate Sample.tokens)
                       (Sample.fresh, Sample.up))) in
  OidcStrategy.getClient Sample.lib Sample.env_no_secret (s, Sample.up) =
    (Threw (UnauthorizedException "OIDC is not properly configured"),
     (s, Sample.up)).
Proof.
  intros s.
  refine (proj1 (getClient_configuration_error Current Sample.lib
                   Sample.env_no_secret s Sample.up _ _)).
  - right; right; left; left; reflexivity.
  - apply OidcStrategy.reachable_invoke, OidcStrategy.reachable_new.
Defined.

(** ** The replaced [callback] *)

Section Callback.
Context {Idp : Type} (lib : OpenidClient Idp) (env : EnvironmentService).

(** The client [getClient] caches: the library's, with [callback] replaced. *)
Lemma reachable_client_patched s :
  OidcStrategy.reachable lib env s ->
  forall c, client s = Some c ->
    callback c =
      patched_callback
        (callback (library_client lib (client_issuer c) (client_metadata c))).
Proof.
  induction 1 as [|s w i Hr IH]; [discriminate|].
  intros c.
  destruct (client s) as [c0|] eqn:Hc.
  - rewrite (invoke_keeps lib env s w c0 i Hc). rewrite Hc. exact (IH c).
  - destruct i as [|tokenSet]; unfold OidcStrategy.invoke, bind.
    + destruct (OidcStrategy.getClient lib env (s, w)) as [[c1|e] st1] eqn:Hg.
      * destruct (getClient_fresh lib env _ _ _ _ Hc Hg)
          as (oidcIssuer & metadata & j & _ & -> & ->).
        simpl. intros H%(inj Some). subst c. reflexivity.
      * simpl. rewrite (getClient_threw lib env _ _ _ _ Hg), Hc. discriminate.
    + pose proof (validate_of_unfold lib env Current tokenSet (s, w)) as E.
      cbn [validate_of getClient_of] in E. rewrite E. clear E.
      destruct (OidcStrategy.getClient lib env (s, w)) as [[c1|e] st1] eqn:Hg.
      * destruct (getClient_fresh lib env _ _ _ _ Hc Hg)
          as (oidcIssuer & metadata & j & _ & -> & ->).
        cbn [fst snd].
        match goal with |- context [userinfo ?c ?t ?w'] =>
          destruct (userinfo c t w') as [[claims|e] w2] end;
          [destruct (negb _)|];
          simpl; intros H%(inj Some); subst c; reflexivity.
      * simpl. rewrite (getClient_threw lib env _ _ _ _ Hg), Hc. discriminate.
Qed.

Lemma reachable_step s w c st1 :
  OidcStrategy.reachable lib env s ->
  OidcStrategy.getClient lib env (s, w) = (Returned c, st1) ->
  OidcStrategy.reachable lib env (fst st1) /\ client (fst st1) = Some c.
Proof.
  intros Hr Hg. split; [|exact (getClient_returned lib env _ _ _ _ Hg)].
  pose proof (OidcStrategy.reachable_invoke lib env s w
                OidcStrategy.InvokeGetClient Hr) as H.
  unfold OidcStrategy.invoke, bind in H. now rewrite Hg in H.
Qed.

(** What the replacement does, call by call. *)
Lemma patched_callback_run
  (oidcIssuer : IssuerMetadata) (metadata : ClientMetadata)
  (redirectUri : string) (parameters : gmap string string)
  (checks : option (gmap string JsValue)) (w0 : World Idp) :
  let original := lib_callback lib oidcIssuer metadata redirectUri parameters in
  patched_callback (callback (library_client lib oidcIssuer metadata))
    redirectUri parameters checks w0 =
  match original checks (idp w0) with
  | (Returned tokens, i1) =>
      (Returned tokens,
       {| idp := i1;
          calls := calls w0 ++ [CallCallback redirectUri parameters checks] |})
  | (Threw error, i1) =>
      if iss_missing_signature error
      then
        (fst (original (retry_checks checks) i1),
         {| idp := snd (original (retry_checks checks) i1);
            calls := calls w0 ++
              [CallCallback redirectUri parameters checks;
               CallCallback redirectUri parameters (retry_checks checks)] |})
      else
        (Threw error,
         {| idp := i1;
            calls := calls w0 ++ [CallCallback redirectUri parameters checks] |})
  end.
Proof.
  intros original. unfold patched_callback, try_catch, library_client, logged.
  simpl. fold original.
  destruct (original checks (idp w0)) as [[tokens|error] i1]; [reflexivity|].
  unfold iss_missing_signature.
  destruct (instanceof_Error error && includes "iss missing" (message_of error));
    [|reflexivity].
  simpl. destruct (original (retry_checks checks) i1) as [r i2]. simpl.
  now rewrite <- app_assoc.
Qed.

End Callback.

(** The other checks survive the retry: only [response_type] is set. *)
Lemma retry_checks_other (checks : option (gmap string JsValue)) (k : string) :
  k <> "response_type" ->
  default ∅ (retry_checks checks) !! k = default ∅ checks !! k.
Proof. intros Hk. unfold retry_checks. simpl. now rewrite lookup_insert_ne. Qed.

(** The test of the replacement, spelled out. *)
Lemma iss_missing_signature_iff (error : Thrown) :
  iss_missing_signature error = true <->
  instanceof_Error error = true /\ occurs_in "iss missing" (message_of error).
Proof.
  unfold iss_missing_signature. now rewrite andb_true_iff, includes_occurs.
Qed.

(** C3, as stated, fails on the code: a failure that is not the missing
    issuer is retried when its message happens to contain the text. Here a
    callback whose [state] parameter is ['iss missing'] fails the state
    check (the response does carry the issuer), and the library is asked
    twice. *)
Lemma retry_on_a_state_mismatch : ~ Strict.retries_only_on_missing_issuer.
Proof.
  intros H.
  eassert (Hg : OidcStrategy.getClient Strict.lib Sample.env (Sample.fresh, Sample.up)
                = (Returned _, _)) by (run_method; reflexivity).
  specialize (H _ _ "https://app.example/callback"
                (<["code" := "good"]> {[ "state" := "iss missing" ]})
                (Some {[ "state" := JsStr "xyz" ]}) Sample.up Hg eq_refl).
  vm_compute in H. discriminate.
Qed.

(** C3, amended: the [callback] of the client [getClient] hands out calls
    the library's [callback] at most twice. A call that returns is the only
    call. A call that throws is retried, once, exactly when what it threw
    is an [Error] in whose message the text ['iss missing'] occurs, whatever
    the failure behind it was; anything else thrown reaches the caller as
    it is, after that one call. The retry has the same redirect URI, the
    same callback parameters (so the same [code]) and the same checks (so
    the same [state]) but for [response_type], and its outcome is the
    caller's, whatever it is. *)
Theorem callback_retries_once {Idp} (lib : OpenidClient Idp)
  (env : EnvironmentService) (s : Strategy Idp) (w : World Idp)
  (c : Client Idp) st1
  (redirectUri : string) (parameters : gmap string string)
  (checks : option (gmap string JsValue)) (w0 : World Idp) :
  OidcStrategy.reachable lib env s ->
  OidcStrategy.getClient lib env (s, w) = (Returned c, st1) ->
  let original :=
    lib_callback lib (client_issuer c) (client_metadata c) redirectUri parameters in
  let first := CallCallback redirectUri parameters checks in
  let retry := CallCallback redirectUri parameters (retry_checks checks) in
  (forall tokens i1,
     original checks (idp w0) = (Returned tokens, i1) ->
     callback c redirectUri parameters checks w0 =
       (Returned tokens, {| idp := i1; calls := calls w0 ++ [first] |})) /\
  (forall error i1,
     original checks (idp w0) = (Threw error, i1) ->
     ~ (instanceof_Error error = true /\
        occurs_in "iss missing" (message_of error)) ->
     callback c redirectUri parameters checks w0 =
       (Threw error, {| idp := i1; calls := calls w0 ++ [first] |})) /\
  (forall error i1,
     original checks (idp w0) = (Threw error, i1) ->
     instanceof_Error error = true ->
     occurs_in "iss missing" (message_of error) ->
     callback c redirectUri parameters checks w0 =
       (fst (original (retry_checks checks) i1),
        {| idp := snd (original (retry_checks checks) i1);
           calls := calls w0 ++ [first; retry] |})) /\
  (forall k, k <> "response_type" ->
     default ∅ (retry_checks checks) !! k = default ∅ checks !! k) /\
  length (calls (snd (callback c redirectUri parameters checks w0)))
    <= length (calls w0) + 2.
Proof.
  intros Hr Hg original first retry.
  destruct (reachable_step lib env _ _ _ _ Hr Hg) as [Hr1 Hc1].
  pose proof (reachable_client_patched lib env _ Hr1 c Hc1) as Hp.
  pose proof (patched_callback_run lib (client_issuer c) (client_metadata c)
                redirectUri parameters checks w0) as Hrun.
  cbv zeta in Hrun. fold original in Hrun. rewrite <- Hp in Hrun.
  repeat split.
  - intros tokens i1 H. now rewrite Hrun, H.
  - intros error i1 H Hs.
    assert (Hf : iss_missing_signature error = false).
    { destruct (iss_missing_signature error) eqn:E; [|reflexivity].
      now apply iss_missing_signature_iff in E. }
    now rewrite Hrun, H, Hf.
  - intros error i1 H Hi Ho.
    assert (Ht : iss_missing_signature error = true)
      by (apply iss_missing_signature_iff; now split).
    now rewrite Hrun, H, Ht.
  - intros k Hk. now apply retry_checks_other.
  - rewrite Hrun.
    destruct (original checks (idp w0)) as [[tokens|error] i1];
      [|destruct (iss_missing_signature error)];
      simpl; rewrite length_app; simpl; lia.
Qed.

Lemma callback_retries_once_witness :
  exists c st1,
    OidcStrategy.getClient Strict.lib Sample.env (Sample.fresh, Sample.up)
      = (Returned c, st1) /\
    let checks : option (gmap string JsValue) :=
      Some {[ "state" := JsStr "xyz" ]} in
    let replayed : gmap string string :=
      <["code" := "good"]> {[ "state" := "iss missing" ]} in
    let answered : gmap string string :=
      <["code" := "good"]> {[ "state" := "xyz" ]} in
    let unsigned : World bool := {| idp := false; calls := [] |} in
    (* a state mismatch whose message contains the text: retried *)
    calls (snd (callback c "https://app.example/callback" replayed checks Sample.up))
      = [CallCallback "https://app.example/callback" replayed checks;
         CallCallback "https://app.example/callback" replayed
           (Some (<["response_type" := JsStr "code"]> {[ "state" := JsStr "xyz" ]}))] /\
    (* a state mismatch whose message does not: not retried *)
    callback c "https://app.example/callback" answered
      (Some {[ "state" := JsStr "abc" ]}) Sample.up
      = (Threw (JsError "state mismatch, expected abc, got: xyz"),
         {| idp := true;
            calls := [CallCallback "https://app.example/callback" answered
                        (Some {[ "state" := JsStr "abc" ]})] |}) /\
    (* the missing issuer: retried, and refused again *)
    callback c "https://app.example/callback" answered checks unsigned
      = (Threw (JsError "iss missing from the response"),
         {| idp := false;
            calls :=
              [CallCallback "https://app.example/callback" answered checks;
               CallCallback "https://app.example/callback" answered
                 (Some (<["response_type" := JsStr "code"]>
                          {[ "state" := JsStr "xyz" ]}))] |}).
Proof.
  eexists _, _. split; [run_method; reflexivity|].
  intros checks replayed answered unsigned.
  split; [|split].
  - refine (f_equal (fun r => calls (snd r)) (proj1 (proj2 (proj2
      (callback_retries_once Strict.lib Sample.env Sample.fresh Sample.up _ _
         "https://app.example/callback" replayed checks Sample.up _ _)))
      (JsError "state mismatch, expected xyz, got: iss missing") true _ _ _)).
    + apply OidcStrategy.reachable_new.
    + run_method; reflexivity.
    + reflexivity.
    + reflexivity.
    + exists "state mismatch, expected xyz, got: ", "". reflexivity.
  - refine (proj1 (proj2
      (callback_retries_once Strict.lib Sample.env Sample.fresh Sample.up _ _
         "https://app.example/callback" answered
         (Some {[ "state" := JsStr "abc" ]}) Sample.up _ _))
      (JsError "state mismatch, expected abc, got: xyz") true _ _).
    + apply OidcStrategy.reachable_new.
    + run_method; reflexivity.
    + reflexivity.
    + intros [_ Ho]. apply includes_occurs in Ho. discriminate.
  - refine (proj1 (proj2 (proj2
      (callback_retries_once Strict.lib Sample.env Sample.fresh Sample.up _ _
         "https://app.example/callback" answered checks unsigned _ _)))
      (JsError "iss missing from the response") false _ _ _).
    + apply OidcStrategy.reachable_new.
    + run_method; reflexivity.
    + reflexivity.
    + reflexivity.
    + exists "", " from the response". reflexivity.
Defined.


(** ** [validate] and the required [email] *)

(** C5: whatever the userinfo response holds besides, [validate] throws the
    missing-claim error when [email] is absent or empty; the error reaches
    the caller, nothing sequenced after [validate] runs, and the controller,
    given that outcome, sets no cookie. When [email] is a non-empty string
    [validate] returns the response itself, all claims included. Both
    variants of the class. *)
Theorem validate_requires_email {Idp} (v : Variant) (lib : OpenidClient Idp)
  (env : EnvironmentService) (st : Strategy Idp * World Idp)
  (c : Client Idp) st1 (tokenSet : TokenSet)
  (claims : gmap string JsValue) (w2 : World Idp) :
  getClient_of v lib env st = (Returned c, st1) ->
  userinfo c (access_token tokenSet) (snd st1) = (Returned claims, w2) ->
  let missing_claim :=
    UnauthorizedException "Email not provided by OIDC provider" in
  (claims !! "email" = None \/ claims !! "email" = Some (JsStr "") ->
     validate_of v lib env tokenSet st = (Threw missing_claim, (fst st1, w2)) /\
     kind_of missing_claim = Some MissingClaimError /\
     forall (rest : gmap string JsValue -> Method Idp Controller.CallbackResult)
            (home : string) (res : Controller.FastifyReply),
       Controller.callback
         (fst (bind (validate_of v lib env tokenSet) rest st)) home res
       = (Threw missing_claim, res)) /\
  (forall e : string,
     claims !! "email" = Some (JsStr e) -> e <> "" ->
     validate_of v lib env tokenSet st = (Returned claims, (fst st1, w2))).
Proof.
  intros Hg Hu missing_claim.
  pose proof (validate_of_unfold lib env v tokenSet st) as E.
  rewrite Hg, Hu in E.
  split.
  - intros Habsent.
    assert (Hf : truthy_prop (claims !! "email") = false)
      by (destruct Habsent as [-> | ->]; reflexivity).
    rewrite Hf in E. simpl in E.
    split; [exact E|]. split; [reflexivity|].
    intros rest home res. unfold bind at 1. now rewrite E.
  - intros e He Hne.
    assert (Ht : truthy_prop (claims !! "email") = true).
    { rewrite He. simpl. destruct (String.eqb_spec e ""); [contradiction|reflexivity]. }
    rewrite Ht in E. exact E.
Qed.

Lemma validate_requires_email_witness :
  (fst (OidcStrategy.validate Sample.lib_no_email Sample.env Sample.tokens
          (Sample.fresh, Sample.up))
   = Threw (UnauthorizedException "Email not provided by OIDC provider")) /\
  (fst (PassportOidc.validate Sample.lib Sample.env Sample.tokens
          (Sample.fresh, Sample.up))
   = Returned {[ "email" := JsStr "b@example.com" ]}).
Proof.
  split.
  - refine (f_equal fst (proj1 (proj1
      (validate_requires_email Current Sample.lib_no_email Sample.env
         (Sample.fresh, Sample.up) _ _ Sample.tokens _ _ _ _) _))).
    + simpl; run_method; reflexivity.
    + reflexivity.
    + left. reflexivity.
  - refine (f_equal fst (proj2
      (validate_requires_email Passport Sample.lib Sample.env
         (Sample.fresh, Sample.up) _ _ Sample.tokens _ _ _ _)
      "b@example.com" _ _)).
    + simpl; run_method; reflexivity.
    + reflexivity.
    + reflexivity.
    + discriminate.
Defined.

(** ** The client gate *)

Section GateProperties.
Import Gate.

Lemma gate_error_indicator search status loginUrl (b : Browser) :
  truthy_str (URLSearchParams_get search "error") = true ->
  checkOidcAndRedirect search status loginUrl b =
    (Returned tt,
     {| localStorage := localStorage b; sessionStorage := sessionStorage b;
        location_href := location_href b; isChecking := false;
        console := console b |}).
Proof.
  intros He. unfold checkOidcAndRedirect, bind, try_catch. now rewrite He.
Qed.

Lemma gate_status_threw search error loginUrl (b : Browser) :
  truthy_str (URLSearchParams_get search "error") = false ->
  checkOidcAndRedirect search (Threw error) loginUrl b =
    (Returned tt,
     {| localStorage := localStorage b; sessionStorage := sessionStorage b;
        location_href := location_href b; isChecking := false;
        console := console b ++ [("Failed to check OIDC status:", error)] |}).
Proof.
  intros He. unfold checkOidcAndRedirect, bind, try_catch. now rewrite He.
Qed.

Lemma gate_disabled search status loginUrl (b : Browser) :
  truthy_str (URLSearchParams_get search "error") = false ->
  enabled status = false ->
  checkOidcAndRedirect search (Returned status) loginUrl b =
    (Returned tt,
     {| localStorage := localStorage b; sessionStorage := sessionStorage b;
        location_href := location_href b; isChecking := false;
        console := console b |}).
Proof.
  intros He Hs. unfold checkOidcAndRedirect, bind, try_catch, await.
  now rewrite He, Hs.
Qed.

End GateProperties.

(** C10: when fetching the status throws, the hook does not throw: the
    exception is caught (and logged), both storages and the window's
    address are as they were, and the hook ends with [isChecking = false].
    This holds for every query string, so an error from the status
    endpoint never redirects and never leaves the hook checking. *)
Theorem gate_status_error_is_caught (search : list (string * string))
  (error : Thrown) (loginUrl : string) (b : Gate.Browser) :
  let after := snd (Gate.checkOidcAndRedirect search (Threw error) loginUrl b) in
  fst (Gate.checkOidcAndRedirect search (Threw error) loginUrl b) = Returned tt /\
  Gate.localStorage after = Gate.localStorage b /\
  Gate.sessionStorage after = Gate.sessionStorage b /\
  Gate.location_href after = Gate.location_href b /\
  Gate.isChecking after = false /\
  (Gate.URLSearchParams_get search "error" = None ->
   Gate.console after =
     Gate.console b ++ [("Failed to check OIDC status:", error)]).
Proof.
  intros after. subst after.
  destruct (truthy_str (Gate.URLSearchParams_get search "error")) eqn:He.
  - rewrite (gate_error_indicator _ _ _ _ He). simpl.
    repeat split. intros Hn. now rewrite Hn in He.
  - rewrite (gate_status_threw _ _ _ _ He). simpl. repeat split.
Qed.

Lemma gate_status_error_is_caught_witness :
  snd (Gate.checkOidcAndRedirect [("page", "2")] (Threw (JsError "Network Error"))
         "/api/auth/oidc/login"
         (Gate.mounted {[ "docmost:currentUser" := "a" ]} ∅
            "https://app.example/home"))
  = {| Gate.localStorage := {[ "docmost:currentUser" := "a" ]};
       Gate.sessionStorage := ∅;
       Gate.location_href := "https://app.example/home";
       Gate.isChecking := false;
       Gate.console :=
         [("Failed to check OIDC status:", JsError "Network Error")] |}.
Proof.
  pose proof (gate_status_error_is_caught [("page", "2")]
                (JsError "Network Error") "/api/auth/oidc/login"
                (Gate.mounted {[ "docmost:currentUser" := "a" ]} ∅
                   "https://app.example/home")) as H.
  destruct H as (_ & _ & _ & _ & _ & Hconsole).
  specialize (Hconsole eq_refl).
  reflexivity.
Defined.

(** C9, as the design words it, fails on the code: a key of the origin's
    storage that the application namespace does not own is cleared too. *)
Lemma gate_clears_foreign_keys :
  let before :=
    Gate.mounted (<["docmost:currentUser" := "a"]> {[ "other-app:theme" := "dark" ]})
      ∅ "https://app.example/home" in
  ~ clears_own_keys_only (String.prefix "docmost:") before
      (snd (Gate.checkOidcAndRedirect [] (Returned {| Gate.enabled := true |})
              "/api/auth/oidc/login" before)).
Proof.
  intros before H.
  destruct (H "other-app:theme") as [_ Hkeep].
  specialize (Hkeep eq_refl). destruct Hkeep as [Hkeep _].
  vm_compute in Hkeep. discriminate.
Qed.

(** C9, amended: with no truthy [error] parameter in the query and a status
    that reports enabled, the hook clears [localStorage] and
    [sessionStorage] whole, every key of the origin whoever owns it, then
    sends the window to the login URL; it does not touch [isChecking]. *)
Theorem gate_clears_storage_and_redirects (search : list (string * string))
  (status : Gate.OidcStatus) (loginUrl : string) (b : Gate.Browser) :
  truthy_str (Gate.URLSearchParams_get search "error") = false ->
  Gate.enabled status = true ->
  Gate.checkOidcAndRedirect search (Returned status) loginUrl b =
    (Returned tt,
     {| Gate.localStorage := ∅;
        Gate.sessionStorage := ∅;
        Gate.location_href := loginUrl;
        Gate.isChecking := Gate.isChecking b;
        Gate.console := Gate.console b |}).
Proof.
  intros Hno_error Henabled.
  unfold Gate.checkOidcAndRedirect, bind, try_catch, await.
  rewrite Hno_error, Henabled. reflexivity.
Qed.

Lemma gate_clears_storage_and_redirects_witness :
  snd (Gate.checkOidcAndRedirect [("page", "2")] (Returned {| Gate.enabled := true |})
         "/api/auth/oidc/login"
         (Gate.mounted (<["docmost:currentUser" := "a"]> {[ "other-app:theme" := "dark" ]})
            {[ "draft" := "x" ]} "https://app.example/home"))
  = {| Gate.localStorage := ∅; Gate.sessionStorage := ∅;
       Gate.location_href := "/api/auth/oidc/login";
       Gate.isChecking := true; Gate.console := [] |}.
Proof.
  refine (f_equal snd (gate_clears_storage_and_redirects _ _ _ _ _ _));
    reflexivity.
Defined.

(** ** The authorization request *)

(** C2: the URL [getAuthorizationUrl] returns is the client's
    [authorizationUrl] of a request whose scope is [openid email profile],
    whose prompt is [login] and whose state is the caller's, unchanged;
    this for every client, hence for every configuration [getClient]
    accepts. *)
Theorem authorization_request_parameters {Idp} (client : Client Idp)
  (redirectUri : string) (state_ : string) :
  exists p : AuthorizationParameters,
    Controller.getAuthorizationUrl client redirectUri state_
      = authorizationUrl client p /\
    scope p = Some "openid email profile" /\
    prompt p = Some "login" /\
    state p = Some state_ /\
    redirect_uri p = Some redirectUri.
Proof.
  unfold Controller.getAuthorizationUrl. eexists. split; [reflexivity|].
  repeat split.
Qed.

(** The scenario of the design, on the sample provider. *)
Example authorization_url_sample :
  exists c st1,
    OidcStrategy.getClient Sample.lib Sample.env (Sample.fresh, Sample.up)
      = (Returned c, st1) /\
    Controller.getAuthorizationUrl c "https://app.example/callback" "xyz" =
      "https://idp.example/authorize?client_id=abc&scope=openid email profile&redirect_uri=https://app.example/callback&state=xyz&prompt=login".
Proof.
  eexists _, _. split; [run_method; reflexivity|]. reflexivity.
Qed.

(** ** The session cookie *)

Section Cookies.
Import Controller.

Lemma session_cookies_drop (jar : Jar) :
  session_cookies (drop_cookie "authToken" jar) = [].
Proof.
  unfold session_cookies, drop_cookie.
  induction jar as [|[n v] jar IH]; [reflexivity|]. simpl.
  destruct (String.eqb n "authToken") eqn:E; simpl; [exact IH|].
  now rewrite E.
Qed.

Lemma callback_returned (token home : string) (res : FastifyReply) :
  callback (Returned {| authToken := token |}) home res =
    (Returned tt,
     res ++ [ClearCookie "authToken"; SetCookie "authToken" token; Redirect home]).
Proof.
  unfold callback, bind, await, clearCookie, setAuthCookie, redirect, modify.
  simpl. now rewrite <- !app_assoc.
Qed.

Lemma callback_threw (error : Thrown) (home : string) (res : FastifyReply) :
  callback (Threw error) home res = (Threw error, res).
Proof. reflexivity. Qed.

Lemma login_reply (authUrl : Outcome string) :
  snd (login authUrl []) =
    match authUrl with
    | Returned url => [ClearCookie "authToken"; Redirect url]
    | Threw _ => [ClearCookie "authToken"]
    end.
Proof. now destruct authUrl. Qed.

Lemma session_cookies_clear (jar : Jar) :
  session_cookies (receive jar (ClearCookie "authToken")) = [].
Proof. apply session_cookies_drop. Qed.

Lemma session_cookies_set (jar : Jar) (token : string) :
  session_cookies (receive jar (SetCookie "authToken" token)) = [token].
Proof.
  change (session_cookies (receive jar (SetCookie "authToken" token)))
    with (token :: session_cookies (drop_cookie "authToken" jar)).
  now rewrite session_cookies_drop.
Qed.

(** After any one request the browser holds at most one session cookie,
    if it held at most one before. *)
Lemma respond_at_most_one (home : string) (req : Request) (jar : Jar) :
  length (session_cookies jar) <= 1 ->
  length (session_cookies (fold_left receive (respond home req) jar)) <= 1.
Proof.
  intros Hjar. destruct req as [authUrl|[[token]|error]]; unfold respond.
  - rewrite login_reply. destruct authUrl; cbn [fold_left receive];
      rewrite session_cookies_drop; simpl; lia.
  - rewrite callback_returned. cbn [snd fold_left app].
    change (receive (receive ?j (SetCookie ?n ?v)) (Redirect home))
      with (receive j (SetCookie n v)).
    rewrite session_cookies_set. simpl. lia.
  - rewrite callback_threw. exact Hjar.
Qed.

Lemma browse_at_most_one (home : string) (reqs : list Request) : forall jar : Jar,
  length (session_cookies jar) <= 1 ->
  length (session_cookies (browse home jar reqs)) <= 1.
Proof.
  induction reqs as [|req reqs IH]; intros jar Hjar; [exact Hjar|].
  unfold browse. simpl. apply IH. now apply respond_at_most_one.
Qed.

End Cookies.

(** C1: a callback completion that succeeds clears the [authToken] cookie
    on the reply and then sets it to the new token, in that order and both
    explicitly; a completion that fails leaves the reply alone. So in a
    browser context that starts with no cookie, whatever requests follow,
    there is never more than one session cookie; after two login
    initiations in a row there is none, and after two callback completions
    in a row, the second failing on its replayed state or succeeding, there
    is exactly one, the latest issued. *)
Theorem session_cookie_cleared_then_issued (home : string) :
  (forall (token : string) (res : Controller.FastifyReply),
     Controller.callback (Returned {| Controller.authToken := token |}) home res =
       (Returned tt,
        res ++ [Controller.ClearCookie "authToken";
                Controller.SetCookie "authToken" token;
                Controller.Redirect home])) /\
  (forall (error : Thrown) (res : Controller.FastifyReply),
     Controller.callback (Threw error) home res = (Threw error, res)) /\
  (forall reqs : list Controller.Request,
     length (Controller.session_cookies (Controller.browse home [] reqs)) <= 1) /\
  (forall (jar : Controller.Jar) (url1 url2 : Outcome string),
     Controller.session_cookies
       (Controller.browse home jar
          [Controller.LoginRequest url1; Controller.LoginRequest url2]) = []) /\
  (forall (jar : Controller.Jar) (token : string) (error : Thrown),
     Controller.session_cookies
       (Controller.browse home jar
          [Controller.CallbackRequest (Returned {| Controller.authToken := token |});
           Controller.CallbackRequest (Threw error)]) = [token]) /\
  (forall (jar : Controller.Jar) (token1 token2 : string),
     Controller.session_cookies
       (Controller.browse home jar
          [Controller.CallbackRequest (Returned {| Controller.authToken := token1 |});
           Controller.CallbackRequest (Returned {| Controller.authToken := token2 |})])
     = [token2]).
Proof.
  split; [exact (fun token res => callback_returned token home res)|].
  split; [exact (fun error res => callback_threw error home res)|].
  split; [intros reqs; apply browse_at_most_one; simpl; lia|].
  split; [|split].
  - intros jar url1 url2. unfold Controller.browse, Controller.respond.
    cbn [fold_left]. rewrite !login_reply.
    destruct url1, url2; cbn [fold_left Controller.receive];
      apply session_cookies_drop.
  - intros jar token error. unfold Controller.browse, Controller.respond.
    cbn [fold_left]. rewrite callback_returned, callback_threw.
    cbn [snd fold_left app].
    change (Controller.receive (Controller.receive ?j (Controller.SetCookie ?n ?v))
              (Controller.Redirect home))
      with (Controller.receive j (Controller.SetCookie n v)).
    apply session_cookies_set.
  - intros jar token1 token2. unfold Controller.browse, Controller.respond.
    cbn [fold_left]. rewrite !callback_returned.
    cbn [snd fold_left app].
    change (Controller.receive (Controller.receive ?j (Controller.SetCookie ?n ?v))
              (Controller.Redirect home))
      with (Controller.receive j (Controller.SetCookie n v)).
    apply session_cookies_set.
Qed.

(** ** The state binding of the callback *)

Section StateBinding.
Context {P : Type} (idp : Design.Provider P)
        (resolve : Design.UserProfile -> string) (redirectUri : string).

Lemma exchangeAndValidate_bad_state expected params (n : Design.Net P) :
  Design.bad_state (Design.AWAITING_CALLBACK expected) params ->
  Design.exchangeAndValidate idp redirectUri params expected n
    = (inl StateMismatchError, n).
Proof.
  intros Hbad. unfold Design.exchangeAndValidate.
  inversion Hbad as [a p Hnone | e presented p Hsome Hne | | | ]; subst.
  - now rewrite Hnone.
  - rewrite Hsome.
    destruct (String.eqb_spec presented expected); [contradiction|reflexivity].
Qed.

(** A callback consumes the attempt, however it ends. *)
Lemma callbackEndpoint_consumes a params st :
  Design.outstanding
    (snd (fst (Design.callbackEndpoint idp resolve redirectUri a params st))) = None.
Proof.
  unfold Design.callbackEndpoint.
  destruct a; simpl; try reflexivity.
  now destruct (Design.completeCallback idp resolve redirectUri params issued st)
    as [[e|token] st'].
Qed.

End StateBinding.

(** C4: a callback with no [state], with a [state] other than the expected
    one, with no login initiated before it, or replaying a state already
    consumed, is rejected with [StateMismatchError]; no token exchange has
    been attempted and the reply carries no cookie (the provider, the count
    of exchanges and the reply are as they were). Any callback consumes the
    attempt, so replaying its parameters is such a callback. *)
Theorem callback_state_binding {P : Type} (idp : Design.Provider P)
  (resolve : Design.UserProfile -> string) (redirectUri : string)
  (a : Design.Attempt) (params : gmap string string)
  (st : Design.Net P * Controller.FastifyReply) :
  Design.bad_state a params ->
  let '(result, after, st') :=
    Design.callbackEndpoint idp resolve redirectUri a params st in
  result = inl StateMismatchError /\
  st' = st /\
  Design.outstanding after = None /\
  forall (issued : string) (params0 : gmap string string) st0,
    Design.bad_state
      (snd (fst (Design.callbackEndpoint idp resolve redirectUri
                   (Design.AWAITING_CALLBACK issued) params0 st0)))
      params0.
Proof.
  intros Hbad.
  pose proof (callbackEndpoint_consumes idp resolve redirectUri a params st) as Hcons.
  destruct (Design.callbackEndpoint idp resolve redirectUri a params st)
    as [[result after] st'] eqn:E.
  simpl in Hcons.
  assert (Hrej : result = inl StateMismatchError /\ st' = st).
  { revert E. unfold Design.callbackEndpoint.
    destruct (Design.outstanding a) as [expected|] eqn:Ho.
    - destruct a; try discriminate. injection Ho as ->.
      unfold Design.completeCallback.
      rewrite (exchangeAndValidate_bad_state idp redirectUri _ _ _ Hbad).
      intros [= <- _ <-]. now destruct st.
    - now intros [= <- _ <-]. }
  destruct Hrej as [-> ->]. repeat split; [exact Hcons|].
  intros issued params0 st0. unfold Design.callbackEndpoint. simpl.
  destruct (Design.completeCallback idp resolve redirectUri params0 issued st0)
    as [[e|token] st1]; simpl.
  - apply Design.state_consumed_rejected.
  - apply Design.state_consumed_session.
Qed.

Lemma callback_state_binding_witness :
  let params : gmap string string :=
    <["code" := "good"]> {[ "state" := "xyz" ]} in
  let fresh : Design.Net unit * Controller.FastifyReply :=
    ({| Design.provider := tt; Design.exchanges := 0 |}, []) in
  let first :=
    Design.callbackEndpoint Sample.provider Design.email
      "https://app.example/callback" (Design.AWAITING_CALLBACK "xyz") params fresh in
  first =
    (inr "b@example.com", Design.SESSION_ISSUED,
     ({| Design.provider := tt; Design.exchanges := 1 |},
      [Controller.ClearCookie "authToken";
       Controller.SetCookie "authToken" "b@example.com"])) /\
  Design.callbackEndpoint Sample.provider Design.email
    "https://app.example/callback" (snd (fst first)) params (snd first)
  = (inl StateMismatchError, Design.SESSION_ISSUED, snd first).
Proof.
  intros params fresh first.
  assert (Hfirst : first =
    (inr "b@example.com", Design.SESSION_ISSUED,
     ({| Design.provider := tt; Design.exchanges := 1 |},
      [Controller.ClearCookie "authToken";
       Controller.SetCookie "authToken" "b@example.com"]))) by reflexivity.
  split; [exact Hfirst|].
  rewrite Hfirst. cbn [fst snd].
  pose proof (callback_state_binding Sample.provider Design.email
                "https://app.example/callback" Design.SESSION_ISSUED params
                ({| Design.provider := tt; Design.exchanges := 1 |},
                 [Controller.ClearCookie "authToken";
                  Controller.SetCookie "authToken" "b@example.com"])
                (Design.state_consumed_session params)) as H.
  destruct (Design.callbackEndpoint Sample.provider Design.email
              "https://app.example/callback" Design.SESSION_ISSUED params _)
    as [[result after] st'] eqn:E.
  destruct H as (-> & -> & _ & _).
  injection E as <-. reflexivity.
Defined.

(** * Further properties of the code *)

(** ** What a call of [getClient] comes to *)

Section GetClientRuns.
Context {Idp : Type} (lib : OpenidClient Idp) (env : EnvironmentService).

(** On an unset cache and a complete configuration, in both variants:
    one discovery, then the constructor, then the cache is filled. *)
Lemma getClient_of_run (v : Variant) (s : Strategy Idp) (w : World Idp) :
  client s = None -> not_configured env = false ->
  getClient_of v lib env (s, w) =
    match lib_discover lib (narrowed (getOidcIssuer env)) (idp w) with
    | (Returned oidcIssuer, i) =>
        match lib_construct lib oidcIssuer (configured_metadata v env) with
        | Some error =>
            (Threw (UnauthorizedException
                      ("Failed to discover OIDC issuer: " +:+ reported_message error)),
             (s, discovered env w i))
        | None =>
            let c := handed_out v lib oidcIssuer (configured_metadata v env) in
            (Returned c, ({| client := Some c |}, discovered env w i))
        end
    | (Threw error, i) =>
        (Threw (UnauthorizedException
                  ("Failed to discover OIDC issuer: " +:+ reported_message error)),
         (s, discovered env w i))
    end.
Proof.
  intros Hc Hn. unfold not_configured in Hn.
  destruct v; simpl;
    unfold OidcStrategy.getClient, PassportOidc.getClient, bind, get, throw;
    simpl; rewrite Hc, Hn;
    unfold try_catch, bind, lift, Issuer_discover, logged, new_Client,
      configured_metadata, reported_message, discovered; simpl;
    (destruct (lib_discover lib _ (idp w)) as [[oidcIssuer|error] i]; simpl;
     [destruct (lib_construct lib oidcIssuer _); simpl|]);
    try reflexivity; now destruct s.
Qed.

(** The object after any invocation is the object after its [getClient]. *)
Lemma invoke_object_current (i : OidcStrategy.Invocation) s w :
  fst (snd (OidcStrategy.invoke lib env i (s, w))) =
  fst (snd (getClient_of Current lib env (s, w))).
Proof.
  destruct i as [|tokenSet]; unfold OidcStrategy.invoke, bind; simpl.
  - now destruct (OidcStrategy.getClient lib env (s, w)) as [[c|e] st1].
  - pose proof (validate_of_unfold lib env Current tokenSet (s, w)) as E.
    cbn [validate_of getClient_of] in E. rewrite E. clear E.
    destruct (OidcStrategy.getClient lib env (s, w)) as [[c|e] st1]; [|reflexivity].
    destruct (userinfo c _ (snd st1)) as [[claims|e] w2]; [|reflexivity].
    now destruct (negb _).
Qed.

Lemma invoke_object_passport (i : PassportOidc.Invocation) s w :
  fst (snd (PassportOidc.invoke lib env i (s, w))) =
  fst (snd (getClient_of Passport lib env (s, w))).
Proof.
  destruct i as [|tokenSet]; unfold PassportOidc.invoke, bind; simpl.
  - now destruct (PassportOidc.getClient lib env (s, w)) as [[c|e] st1].
  - pose proof (validate_of_unfold lib env Passport tokenSet (s, w)) as E.
    cbn [validate_of getClient_of] in E. rewrite E. clear E.
    destruct (PassportOidc.getClient lib env (s, w)) as [[c|e] st1]; [|reflexivity].
    destruct (userinfo c _ (snd st1)) as [[claims|e] w2]; [|reflexivity].
    now destruct (negb _).
Qed.

(** One [getClient] keeps a property of the cached client that the
    clients it builds have. *)
Lemma getClient_of_preserves (v : Variant) (Q : Client Idp -> Prop) s w :
  (forall oidcIssuer, Q (handed_out v lib oidcIssuer (configured_metadata v env))) ->
  (forall c, client s = Some c -> Q c) ->
  forall c, client (fst (snd (getClient_of v lib env (s, w)))) = Some c -> Q c.
Proof.
  intros Hbuilt Hs c.
  destruct (client s) as [c0|] eqn:Hc.
  - rewrite (getClient_of_cached lib env v s w c0 Hc). simpl. rewrite Hc.
    apply Hs.
  - destruct (not_configured env) eqn:Hn.
    + rewrite (getClient_of_unconfigured lib env v s w Hc Hn). simpl.
      rewrite Hc. discriminate.
    + rewrite (getClient_of_run v s w Hc Hn).
      destruct (lib_discover lib _ (idp w)) as [[oidcIssuer|error] i].
      * destruct (lib_construct lib oidcIssuer _); simpl.
        -- rewrite Hc. discriminate.
        -- intros H%(inj Some). subst c. apply Hbuilt.
      * simpl. rewrite Hc. discriminate.
Qed.

Lemma reachable_of_invariant (v : Variant) (Q : Client Idp -> Prop) s :
  (forall oidcIssuer, Q (handed_out v lib oidcIssuer (configured_metadata v env))) ->
  reachable_of v lib env s ->
  forall c, client s = Some c -> Q c.
Proof.
  intros Hbuilt Hr. destruct v; simpl in Hr.
  - induction Hr as [|s w i Hr IH]; [discriminate|].
    rewrite invoke_object_current.
    now apply getClient_of_preserves.
  - induction Hr as [|s w i Hr IH]; [discriminate|].
    rewrite invoke_object_passport.
    now apply getClient_of_preserves.
Qed.

(** The object after a [getClient] is reachable if the one before was. *)
Lemma reachable_of_getClient (v : Variant) s w :
  reachable_of v lib env s ->
  reachable_of v lib env (fst (snd (getClient_of v lib env (s, w)))).
Proof.
  intros Hr. destruct v; simpl in Hr |- *.
  - pose proof (OidcStrategy.reachable_invoke lib env s w
                  OidcStrategy.InvokeGetClient Hr) as H.
    rewrite invoke_object_current in H. exact H.
  - pose proof (PassportOidc.reachable_invoke lib env s w
                  PassportOidc.InvokeGetClient Hr) as H.
    rewrite invoke_object_passport in H. exact H.
Qed.

End GetClientRuns.

Section GetClientFacts.
Context {Idp : Type} (lib : OpenidClient Idp) (env : EnvironmentService).

Lemma getClient_of_returned (v : Variant) s w c st1 :
  getClient_of v lib env (s, w) = (Returned c, st1) ->
  client (fst st1) = Some c.
Proof.
  destruct (client s) as [c0|] eqn:Hc.
  - rewrite (getClient_of_cached lib env v s w c0 Hc). now intros [= <- <-].
  - destruct (not_configured env) eqn:Hn.
    + now rewrite (getClient_of_unconfigured lib env v s w Hc Hn).
    + rewrite (getClient_of_run lib env v s w Hc Hn).
      destruct (lib_discover lib _ (idp w)) as [[oidcIssuer|error] i];
        [destruct (lib_construct lib oidcIssuer _)|]; try discriminate.
      cbv zeta. intros H. injection H as <- <-. reflexivity.
Qed.

Lemma getClient_of_calls (v : Variant) s w :
  calls (snd (snd (getClient_of v lib env (s, w)))) =
    calls w ++ discovery_calls env s.
Proof.
  unfold discovery_calls.
  destruct (client s) as [c0|] eqn:Hc.
  - rewrite (getClient_of_cached lib env v s w c0 Hc). simpl.
    now rewrite app_nil_r.
  - destruct (not_configured env) eqn:Hn.
    + rewrite (getClient_of_unconfigured lib env v s w Hc Hn). simpl.
      now rewrite app_nil_r.
    + rewrite (getClient_of_run lib env v s w Hc Hn).
      destruct (lib_discover lib _ (idp w)) as [[oidcIssuer|error] i];
        [destruct (lib_construct lib oidcIssuer _)|]; reflexivity.
Qed.

Lemma getClient_of_unfold_threw (v : Variant) s w error st1 :
  getClient_of v lib env (s, w) = (Threw error, st1) ->
  error = UnauthorizedException "OIDC is not properly configured" \/
  exists m : string,
    error = UnauthorizedException ("Failed to discover OIDC issuer: " +:+ m).
Proof.
  destruct (client s) as [c0|] eqn:Hc.
  - now rewrite (getClient_of_cached lib env v s w c0 Hc).
  - destruct (not_configured env) eqn:Hn.
    + rewrite (getClient_of_unconfigured lib env v s w Hc Hn).
      intros [= <- _]. now left.
    + rewrite (getClient_of_run lib env v s w Hc Hn).
      destruct (lib_discover lib _ (idp w)) as [[oidcIssuer|e] i];
        [destruct (lib_construct lib oidcIssuer _) as [e|]|];
        try discriminate; intros [= <- _]; right; eauto.
Qed.

(** Every client the object caches answers [userinfo] by one logged call
    to the library. *)
Lemma reachable_userinfo (v : Variant) s c accessToken (w : World Idp) :
  reachable_of v lib env s -> client s = Some c ->
  calls (snd (userinfo c accessToken w)) = calls w ++ [CallUserinfo accessToken].
Proof.
  intros Hr Hc. revert c Hc.
  apply (reachable_of_invariant lib env v
           (fun c => calls (snd (userinfo c accessToken w))
                     = calls w ++ [CallUserinfo accessToken])); [|exact Hr].
  intros oidcIssuer. destruct v; simpl; unfold logged;
    now destruct (lib_userinfo lib _ _ accessToken (idp w)).
Qed.

End GetClientFacts.

(** X1: whatever goes wrong inside [getClient], and whatever the library
    throws, the caller sees an [UnauthorizedException] with one of two
    messages, and the object is as it was before the call. Both variants. *)
Theorem getClient_throws_unauthorized {Idp} (v : Variant) (lib : OpenidClient Idp)
  (env : EnvironmentService) (s : Strategy Idp) (w : World Idp)
  (error : Thrown) st1 :
  getClient_of v lib env (s, w) = (Threw error, st1) ->
  fst st1 = s /\
  (error = UnauthorizedException "OIDC is not properly configured" \/
   exists m : string,
     error = UnauthorizedException ("Failed to discover OIDC issuer: " +:+ m)).
Proof.
  destruct (client s) as [c0|] eqn:Hc.
  - now rewrite (getClient_of_cached lib env v s w c0 Hc).
  - destruct (not_configured env) eqn:Hn.
    + rewrite (getClient_of_unconfigured lib env v s w Hc Hn).
      intros [= <- <-]. split; [reflexivity|now left].
    + rewrite (getClient_of_run lib env v s w Hc Hn).
      destruct (lib_discover lib _ (idp w)) as [[oidcIssuer|e] i];
        [destruct (lib_construct lib oidcIssuer _) as [e|]|];
        try discriminate;
        intros [= <- <-]; (split; [reflexivity|right; eauto]).
Qed.

Lemma getClient_throws_unauthorized_witness :
  fst (snd (PassportOidc.getClient Sample.lib Sample.env (Sample.fresh, Sample.down)))
    = Sample.fresh.
Proof.
  refine (proj1 (getClient_throws_unauthorized Passport Sample.lib Sample.env
                   Sample.fresh Sample.down
                   (UnauthorizedException
                      "Failed to discover OIDC issuer: connect ECONNREFUSED")
                   _ _)).
  simpl; run_method; reflexivity.
Defined.

(** X2: when discovery succeeds but the [Client] constructor throws, the
    failure is reported under the discovery message too, with the
    constructor's own message appended (or [Unknown error] for a thrown
    value that is not an [Error]); the cache stays unset and the discovery
    call has been spent. Both variants. *)
Theorem getClient_constructor_failure {Idp} (v : Variant) (lib : OpenidClient Idp)
  (env : EnvironmentService) (s : Strategy Idp) (w : World Idp)
  (oidcIssuer : IssuerMetadata) (i : Idp) (error : Thrown) :
  client s = None ->
  not_configured env = false ->
  lib_discover lib (narrowed (getOidcIssuer env)) (idp w) = (Returned oidcIssuer, i) ->
  lib_construct lib oidcIssuer (configured_metadata v env) = Some error ->
  getClient_of v lib env (s, w) =
    (Threw (UnauthorizedException
              ("Failed to discover OIDC issuer: " +:+
               (if instanceof_Error error then message_of error else "Unknown error"))),
     (s, {| idp := i;
            calls := calls w ++ [CallDiscover (narrowed (getOidcIssuer env))] |})).
Proof.
  intros Hc Hn Hd Hk.
  rewrite (getClient_of_run lib env v s w Hc Hn), Hd, Hk. reflexivity.
Qed.

Lemma getClient_constructor_failure_witness :
  OidcStrategy.getClient Sample2.lib_rejecting Sample.env (Sample.fresh, Sample.up) =
    (Threw (UnauthorizedException
              "Failed to discover OIDC issuer: client_id is required"),
     (Sample.fresh,
      {| idp := true; calls := [CallDiscover "https://idp.example"] |})).
Proof.
  refine (getClient_constructor_failure Current Sample2.lib_rejecting Sample.env
            Sample.fresh Sample.up Sample.metadata true
            (JsError "client_id is required") _ _ _ _); reflexivity.
Defined.

(** X3: one call of [getClient] asks the library for at most one thing, a
    discovery of the configured issuer, and only when the cache is unset
    and the configuration complete; it never exchanges a code or fetches
    userinfo. Both variants, any object, any world. *)
Theorem getClient_library_calls {Idp} (v : Variant) (lib : OpenidClient Idp)
  (env : EnvironmentService) (s : Strategy Idp) (w : World Idp) :
  calls (snd (snd (getClient_of v lib env (s, w)))) =
    calls w ++
    match client s with
    | Some _ => []
    | None =>
        if not_configured env then []
        else [CallDiscover (narrowed (getOidcIssuer env))]
    end.
Proof.
  destruct (client s) as [c0|] eqn:Hc.
  - rewrite (getClient_of_cached lib env v s w c0 Hc). simpl.
    now rewrite app_nil_r.
  - destruct (not_configured env) eqn:Hn.
    + rewrite (getClient_of_unconfigured lib env v s w Hc Hn). simpl.
      now rewrite app_nil_r.
    + rewrite (getClient_of_run lib env v s w Hc Hn).
      destruct (lib_discover lib _ (idp w)) as [[oidcIssuer|error] i];
        [destruct (lib_construct lib oidcIssuer _)|]; reflexivity.
Qed.

(** X4: every client the object ever caches was built from the
    configuration: its options are the configured client id, secret and
    redirect URI with response type [code] (and [client_secret_post] in the
    current variant); its [userinfo] and [authorizationUrl] are the
    library's; its [callback] is the library's in the Passport variant and
    the retrying replacement in the current one. *)
Theorem cached_client_is_configured {Idp} (v : Variant) (lib : OpenidClient Idp)
  (env : EnvironmentService) (s : Strategy Idp) (c : Client Idp) :
  reachable_of v lib env s ->
  client s = Some c ->
  let library := library_client lib (client_issuer c) (client_metadata c) in
  client_metadata c = configured_metadata v env /\
  userinfo c = userinfo library /\
  authorizationUrl c = authorizationUrl library /\
  callback c =
    match v with
    | Current => patched_callback (callback library)
    | Passport => callback library
    end.
Proof.
  intros Hr Hc. revert c Hc.
  apply (reachable_of_invariant lib env v
    (fun c =>
       let library := library_client lib (client_issuer c) (client_metadata c) in
       client_metadata c = configured_metadata v env /\
       userinfo c = userinfo library /\
       authorizationUrl c = authorizationUrl library /\
       callback c =
         match v with
         | Current => patched_callback (callback library)
         | Passport => callback library
         end)); [|exact Hr].
  intros oidcIssuer. destruct v; simpl; repeat split.
Qed.

Lemma cached_client_is_configured_witness :
  exists c,
    client (fst (snd (OidcStrategy.getClient Sample.lib Sample.env
                        (Sample.fresh, Sample.up)))) = Some c /\
    client_metadata c =
      {| client_id := "abc"; client_secret := "s3cr3t";
         redirect_uris := ["https://app.example/callback"];
         response_types := ["code"];
         token_endpoint_auth_method := Some "client_secret_post" |}.
Proof.
  eexists. split; [run_method; reflexivity|].
  refine (proj1 (cached_client_is_configured Current Sample.lib Sample.env _ _ _ _)).
  - exact (OidcStrategy.reachable_invoke Sample.lib Sample.env Sample.fresh
             Sample.up OidcStrategy.InvokeGetClient
             (OidcStrategy.reachable_new Sample.lib Sample.env)).
  - run_method; reflexivity.
Defined.

(** X5: the Passport variant installs no replacement: the [callback] of the
    client it hands out is one call to the library, whose outcome is the
    caller's as it is. A missing-issuer failure is not retried there. *)
Theorem passport_callback_never_retries {Idp} (lib : OpenidClient Idp)
  (env : EnvironmentService) (s : Strategy Idp) (w : World Idp)
  (c : Client Idp) st1
  (redirectUri : string) (parameters : gmap string string)
  (checks : option (gmap string JsValue)) (w0 : World Idp) :
  PassportOidc.reachable lib env s ->
  PassportOidc.getClient lib env (s, w) = (Returned c, st1) ->
  let answer :=
    lib_callback lib (client_issuer c) (client_metadata c)
      redirectUri parameters checks (idp w0) in
  callback c redirectUri parameters checks w0 =
    (fst answer,
     {| idp := snd answer;
        calls := calls w0 ++ [CallCallback redirectUri parameters checks] |}).
Proof.
  intros Hr Hg answer.
  pose proof (reachable_of_getClient lib env Passport s w Hr) as Hr1.
  pose proof (getClient_of_returned lib env Passport s w c st1 Hg) as Hc1.
  simpl in Hr1. rewrite Hg in Hr1. simpl in Hr1.
  pose proof (reachable_of_invariant lib env Passport
    (fun c => callback c =
       callback (library_client lib (client_issuer c) (client_metadata c)))
    (fst st1) (fun _ => eq_refl) Hr1 c Hc1) as Hcb.
  rewrite Hcb. simpl. unfold logged. fold answer. now destruct answer.
Qed.

Lemma passport_callback_never_retries_witness :
  exists c st1,
    PassportOidc.getClient Sample.lib Sample.env (Sample.fresh, Sample.up)
      = (Returned c, st1) /\
    callback c "https://app.example/callback" {[ "code" := "good" ]} None Sample.up =
      (Threw (JsError "iss missing from the response"),
       {| idp := true;
          calls := [CallCallback "https://app.example/callback"
                      {[ "code" := "good" ]} None] |}).
Proof.
  eexists _, _. split; [run_method; reflexivity|].
  refine (passport_callback_never_retries Sample.lib Sample.env Sample.fresh
            Sample.up _ _ "https://app.example/callback" {[ "code" := "good" ]}
            None Sample.up _ _).
  - apply PassportOidc.reachable_new.
  - run_method; reflexivity.
Defined.

(** X6: [validate] asks the library for at most two things, in this order:
    the discovery its [getClient] needs, if any, and one userinfo request
    for the token set's access token, made only when [getClient] returned.
    It never exchanges a code. Both variants, every reachable object. *)
Theorem validate_library_calls {Idp} (v : Variant) (lib : OpenidClient Idp)
  (env : EnvironmentService) (s : Strategy Idp) (w : World Idp)
  (tokenSet : TokenSet) :
  reachable_of v lib env s ->
  calls (snd (snd (validate_of v lib env tokenSet (s, w)))) =
    calls w ++ discovery_calls env s ++
    match fst (getClient_of v lib env (s, w)) with
    | Returned _ => [CallUserinfo (access_token tokenSet)]
    | Threw _ => []
    end.
Proof.
  intros Hr.
  pose proof (getClient_of_calls lib env v s w) as Hcalls.
  pose proof (reachable_of_getClient lib env v s w Hr) as Hr1.
  rewrite validate_of_unfold.
  destruct (getClient_of v lib env (s, w)) as [[c|error] st1] eqn:Hg;
    simpl in Hcalls, Hr1 |- *.
  - pose proof (getClient_of_returned lib env v s w c st1 Hg) as Hc1.
    pose proof (reachable_userinfo lib env v (fst st1) c (access_token tokenSet)
                  (snd st1) Hr1 Hc1) as Hu.
    destruct (userinfo c (access_token tokenSet) (snd st1)) as [[claims|e] w2];
      simpl in Hu |- *; rewrite Hu, Hcalls; now rewrite <- app_assoc.
  - now rewrite Hcalls, app_nil_r.
Qed.

Lemma validate_library_calls_witness :
  calls (snd (snd (OidcStrategy.validate Sample.lib Sample.env Sample.tokens
                     (Sample.fresh, Sample.up))))
  = [CallDiscover "https://idp.example"; CallUserinfo (Some "at-1")].
Proof.
  refine (validate_library_calls Current Sample.lib Sample.env Sample.fresh
            Sample.up Sample.tokens _).
  apply OidcStrategy.reachable_new.
Defined.

(** ** What [validate] throws and what it accepts *)

(** X7: an exception out of [validate] is one of [getClient]'s two, the
    missing-email one, or whatever the library's userinfo request threw;
    the last is handed to the caller as it is, not wrapped in an
    [UnauthorizedException]. Both variants. *)
Theorem validate_throws {Idp} (v : Variant) (lib : OpenidClient Idp)
  (env : EnvironmentService) (tokenSet : TokenSet)
  (st : Strategy Idp * World Idp) (error : Thrown) st' :
  validate_of v lib env tokenSet st = (Threw error, st') ->
  error = UnauthorizedException "OIDC is not properly configured" \/
  (exists m : string,
     error = UnauthorizedException ("Failed to discover OIDC issuer: " +:+ m)) \/
  error = UnauthorizedException "Email not provided by OIDC provider" \/
  (exists c st1 w2,
     getClient_of v lib env st = (Returned c, st1) /\
     userinfo c (access_token tokenSet) (snd st1) = (Threw error, w2) /\
     st' = (fst st1, w2)).
Proof.
  rewrite validate_of_unfold. destruct st as [s w].
  destruct (getClient_of v lib env (s, w)) as [[c|e] st1] eqn:Hg.
  - destruct (userinfo c (access_token tokenSet) (snd st1))
      as [[claims|e] w2] eqn:Hu.
    + destruct (negb (truthy_prop (claims !! "email"))); [|discriminate].
      intros [= <- <-]. right; right; left. reflexivity.
    + intros [= <- <-]. right; right; right. exists c, st1, w2. repeat split.
      exact Hu.
  - intros [= <- <-].
    destruct (getClient_of_unfold_threw lib env v s w e st1 Hg) as [H|H];
      [now left | right; now left].
Qed.

Lemma validate_throws_witness :
  let thrown := JsError "expected 200 OK, got: 401 Unauthorized" in
  exists st',
    OidcStrategy.validate Sample2.lib_userinfo_refused Sample.env Sample.tokens
      (Sample.fresh, Sample.up) = (Threw thrown, st') /\
    (thrown = UnauthorizedException "OIDC is not properly configured" \/
     (exists m : string,
        thrown = UnauthorizedException ("Failed to discover OIDC issuer: " +:+ m)) \/
     thrown = UnauthorizedException "Email not provided by OIDC provider" \/
     (exists c st1 w2,
        OidcStrategy.getClient Sample2.lib_userinfo_refused Sample.env
          (Sample.fresh, Sample.up) = (Returned c, st1) /\
        userinfo c (Some "at-1") (snd st1) = (Threw thrown, w2) /\
        st' = (fst st1, w2))).
Proof.
  intros thrown. eexists.
  split.
  - run_method; reflexivity.
  - refine (validate_throws Current Sample2.lib_userinfo_refused Sample.env
              Sample.tokens (Sample.fresh, Sample.up) thrown _ _).
    simpl; run_method; reflexivity.
Defined.

(** X8: [validate] tests the [email] claim for truthiness and for nothing
    else. It returns the response exactly when the claim is truthy: an
    [email] of [null], [false] or [0] is refused like a missing one, and a
    truthy value that is not a string ([true], a non-zero number) is let
    through with the response unchanged. Both variants. *)
Theorem validate_email_truthiness {Idp} (v : Variant) (lib : OpenidClient Idp)
  (env : EnvironmentService) (st : Strategy Idp * World Idp)
  (c : Client Idp) st1 (tokenSet : TokenSet)
  (claims : gmap string JsValue) (w2 : World Idp) :
  getClient_of v lib env st = (Returned c, st1) ->
  userinfo c (access_token tokenSet) (snd st1) = (Returned claims, w2) ->
  let refused :=
    (Threw (UnauthorizedException "Email not provided by OIDC provider"),
     (fst st1, w2)) in
  let accepted := (Returned claims, (fst st1, w2)) in
  (fst (validate_of v lib env tokenSet st) = Returned claims <->
   truthy_prop (claims !! "email") = true) /\
  (claims !! "email" = Some JsNull \/ claims !! "email" = Some (JsBool false) \/
   claims !! "email" = Some (JsNum 0) ->
   validate_of v lib env tokenSet st = refused) /\
  (claims !! "email" = Some (JsBool true) \/
   (exists n : Z, n <> 0%Z /\ claims !! "email" = Some (JsNum n)) ->
   validate_of v lib env tokenSet st = accepted).
Proof.
  intros Hg Hu refused accepted.
  pose proof (validate_of_unfold lib env v tokenSet st) as E.
  rewrite Hg, Hu in E.
  split; [|split].
  - rewrite E. simpl.
    destruct (truthy_prop (claims !! "email")); simpl; split;
      intros H; try reflexivity; discriminate.
  - intros H.
    assert (Hf : truthy_prop (claims !! "email") = false)
      by (destruct H as [-> | [-> | ->]]; reflexivity).
    now rewrite Hf in E.
  - intros H.
    assert (Ht : truthy_prop (claims !! "email") = true).
    { destruct H as [-> | (n & Hn & ->)]; [reflexivity|]. simpl.
      destruct (Z.eqb_spec n 0); [contradiction|reflexivity]. }
    now rewrite Ht in E.
Qed.

Lemma validate_email_truthiness_witness :
  fst (OidcStrategy.validate Sample2.lib_null_email Sample.env Sample.tokens
         (Sample.fresh, Sample.up))
  = Threw (UnauthorizedException "Email not provided by OIDC provider").
Proof.
  refine (f_equal fst (proj1 (proj2
    (validate_email_truthiness Current Sample2.lib_null_email Sample.env
       (Sample.fresh, Sample.up) _ _ Sample.tokens _ _ _ _)) _)).
  - simpl; run_method; reflexivity.
  - reflexivity.
  - left. reflexivity.
Defined.

(** X9: with a required field of the configuration missing, [validate]
    throws the configuration error of [getClient] before it asks the
    library for anything: no discovery, no userinfo request, the object and
    the world as they were. Both variants, every reachable object. *)
Theorem validate_unconfigured {Idp} (v : Variant) (lib : OpenidClient Idp)
  (env : EnvironmentService) (s : Strategy Idp) (w : World Idp)
  (tokenSet : TokenSet) :
  some_field_missing env ->
  reachable_of v lib env s ->
  validate_of v lib env tokenSet (s, w) =
    (Threw (UnauthorizedException "OIDC is not properly configured"), (s, w)).
Proof.
  intros Hm Hr. apply not_configured_iff in Hm.
  pose proof (unconfigured_never_cached lib env v s Hm Hr) as Hc.
  now rewrite validate_of_unfold, (getClient_of_unconfigured lib env v s w Hc Hm).
Qed.

Lemma validate_unconfigured_witness :
  PassportOidc.validate Sample.lib Sample.env_no_secret Sample.tokens
    (Sample.fresh, Sample.up)
  = (Threw (UnauthorizedException "OIDC is not properly configured"),
     (Sample.fresh, Sample.up)).
Proof.
  refine (validate_unconfigured Passport Sample.lib Sample.env_no_secret
            Sample.fresh Sample.up Sample.tokens _ _).
  - right; right; left; left; reflexivity.
  - apply PassportOidc.reachable_new.
Defined.

(** X10: a failed discovery does not spoil the object: with the cache unset
    and the configuration complete, a call that fails on discovery followed
    by a call for which discovery and construction succeed returns the
    client built from that second discovery and caches it. Both variants. *)
Theorem getClient_recovers {Idp} (v : Variant) (lib : OpenidClient Idp)
  (env : EnvironmentService) (s : Strategy Idp) (w w2 : World Idp)
  (error : Thrown) (i i2 : Idp) (oidcIssuer : IssuerMetadata) :
  client s = None ->
  not_configured env = false ->
  lib_discover lib (narrowed (getOidcIssuer env)) (idp w) = (Threw error, i) ->
  lib_discover lib (narrowed (getOidcIssuer env)) (idp w2) = (Returned oidcIssuer, i2) ->
  lib_construct lib oidcIssuer (configured_metadata v env) = None ->
  let after_failure := fst (snd (getClient_of v lib env (s, w))) in
  let c := handed_out v lib oidcIssuer (configured_metadata v env) in
  getClient_of v lib env (after_failure, w2) =
    (Returned c,
     ({| client := Some c |},
      {| idp := i2;
         calls := calls w2 ++ [CallDiscover (narrowed (getOidcIssuer env))] |})).
Proof.
  intros Hc Hn Hd Hd2 Hk after_failure c.
  assert (Hs : after_failure = s).
  { unfold after_failure.
    now rewrite (getClient_of_run lib env v s w Hc Hn), Hd. }
  rewrite Hs, (getClient_of_run lib env v s w2 Hc Hn), Hd2, Hk. reflexivity.
Qed.

Lemma getClient_recovers_witness :
  exists c,
    OidcStrategy.getClient Sample.lib Sample.env
      (fst (snd (OidcStrategy.getClient Sample.lib Sample.env
                   (Sample.fresh, Sample.down))), Sample.up)
    = (Returned c,
       ({| client := Some c |},
        {| idp := true; calls := [CallDiscover "https://idp.example"] |})).
Proof.
  eexists.
  refine (getClient_recovers Current Sample.lib Sample.env Sample.fresh
            Sample.down Sample.up (JsError "connect ECONNREFUSED") false true
            Sample.metadata _ _ _ _ _); reflexivity.
Defined.

(** ** The retry of the replaced [callback] *)


(** X12: the checks of the retry. [response_type] is ['code'] whatever the
    caller asked for, every other check is the caller's, no check is added
    besides, and with no checks given ([undefined]) the retry is made with
    [response_type] alone. Building the retry's checks from the retry's
    checks changes nothing. *)
Theorem retry_checks_shape (checks : option (gmap string JsValue)) :
  exists retried : gmap string JsValue,
    retry_checks checks = Some retried /\
    retried !! "response_type" = Some (JsStr "code") /\
    (forall k : string, k <> "response_type" ->
       retried !! k = default ∅ checks !! k) /\
    dom retried = {[ "response_type" ]} ∪ dom (default ∅ checks) /\
    (checks = None -> retried = {[ "response_type" := JsStr "code" ]}) /\
    retry_checks (retry_checks checks) = retry_checks checks.
Proof.
  exists (<["response_type" := JsStr "code"]> (default ∅ checks)).
  split; [reflexivity|]. split; [apply lookup_insert_eq|].
  split; [intros k Hk; now apply lookup_insert_ne|].
  split; [apply dom_insert_L|].
  split; [now intros ->|].
  unfold retry_checks. simpl. now rewrite insert_insert_eq.
Qed.

Lemma retry_checks_shape_witness :
  retry_checks None = Some {[ "response_type" := JsStr "code" ]}.
Proof.
  destruct (retry_checks_shape None) as (retried & H & _ & _ & _ & Hnone & _).
  rewrite H. f_equal. exact (Hnone eq_refl).
Defined.

(** ** The client gate, case by case *)

(** X13: with a truthy [error] parameter in the query the hook does nothing
    but stop checking, whatever the status endpoint would have answered,
    enabled, disabled or failing: storages, address and console are as they
    were and [isChecking] is [false]. *)
Theorem gate_error_indicator_wins (search : list (string * string))
  (getOidcStatus : Outcome Gate.OidcStatus) (loginUrl : string)
  (b : Gate.Browser) (indicator : string) :
  Gate.URLSearchParams_get search "error" = Some indicator ->
  indicator <> "" ->
  Gate.checkOidcAndRedirect search getOidcStatus loginUrl b =
    (Returned tt,
     {| Gate.localStorage := Gate.localStorage b;
        Gate.sessionStorage := Gate.sessionStorage b;
        Gate.location_href := Gate.location_href b;
        Gate.isChecking := false;
        Gate.console := Gate.console b |}).
Proof.
  intros Hget Hne.
  unfold Gate.checkOidcAndRedirect, bind, try_catch. rewrite Hget. simpl.
  destruct (String.eqb_spec indicator ""); [contradiction|reflexivity].
Qed.

Lemma gate_error_indicator_wins_witness :
  snd (Gate.checkOidcAndRedirect [("error", "access_denied")]
         (Returned {| Gate.enabled := true |}) "/api/auth/oidc/login"
         (Gate.mounted {[ "docmost:currentUser" := "a" ]} ∅
            "https://app.example/login?error=access_denied"))
  = {| Gate.localStorage := {[ "docmost:currentUser" := "a" ]};
       Gate.sessionStorage := ∅;
       Gate.location_href := "https://app.example/login?error=access_denied";
       Gate.isChecking := false;
       Gate.console := [] |}.
Proof.
  refine (f_equal snd (gate_error_indicator_wins _ _ _ _ "access_denied" _ _)).
  - reflexivity.
  - discriminate.
Defined.

(** X14: the hook never throws, and each run ends in one of two ways. It
    redirects, exactly when the query has no truthy [error] parameter and
    the status call returned enabled: both storages are empty, the window
    is sent to the login URL and [isChecking] is left alone. Or it does
    not: storages and address are untouched and [isChecking] is [false].
    So it never sets [isChecking] back to [true], never clears a storage
    without redirecting, and writes to the console only the error of a
    status call it made. *)
Theorem gate_two_outcomes (search : list (string * string))
  (getOidcStatus : Outcome Gate.OidcStatus) (loginUrl : string)
  (b : Gate.Browser) :
  let result := Gate.checkOidcAndRedirect search getOidcStatus loginUrl b in
  fst result = Returned tt /\
  Gate.isChecking (snd result) = redirects search getOidcStatus && Gate.isChecking b /\
  Gate.console (snd result) =
    Gate.console b ++
    match getOidcStatus with
    | Threw error =>
        if truthy_str (Gate.URLSearchParams_get search "error") then []
        else [("Failed to check OIDC status:", error)]
    | Returned _ => []
    end /\
  if redirects search getOidcStatus
  then Gate.localStorage (snd result) = ∅ /\
       Gate.sessionStorage (snd result) = ∅ /\
       Gate.location_href (snd result) = loginUrl
  else Gate.localStorage (snd result) = Gate.localStorage b /\
       Gate.sessionStorage (snd result) = Gate.sessionStorage b /\
       Gate.location_href (snd result) = Gate.location_href b.
Proof.
  intros result. subst result.
  unfold redirects, Gate.checkOidcAndRedirect, bind, try_catch, await.
  destruct (truthy_str (Gate.URLSearchParams_get search "error")); simpl.
  - destruct getOidcStatus; rewrite ?app_nil_r; repeat split.
  - destruct getOidcStatus as [[[|]]|error]; simpl;
      rewrite ?app_nil_r; repeat split.
Qed.

(** X15: an [error] parameter that is there but empty does not count as an
    error indicator: only the first [error] parameter is read and it is
    tested for truthiness, so with the status enabled the hook clears both
    storages and redirects, even if a later [error] parameter has a value. *)
Theorem gate_empty_error_parameter (rest : list (string * string))
  (status : Gate.OidcStatus) (loginUrl : string) (b : Gate.Browser) :
  Gate.enabled status = true ->
  Gate.checkOidcAndRedirect (("error", "") :: rest) (Returned status) loginUrl b =
    (Returned tt,
     {| Gate.localStorage := ∅;
        Gate.sessionStorage := ∅;
        Gate.location_href := loginUrl;
        Gate.isChecking := Gate.isChecking b;
        Gate.console := Gate.console b |}).
Proof.
  intros Henabled.
  unfold Gate.checkOidcAndRedirect, bind, try_catch, await. simpl.
  now rewrite Henabled.
Qed.

Lemma gate_empty_error_parameter_witness :
  Gate.location_href
    (snd (Gate.checkOidcAndRedirect [("error", ""); ("error", "access_denied")]
            (Returned {| Gate.enabled := true |}) "/api/auth/oidc/login"
            (Gate.mounted ∅ ∅ "https://app.example/login?error=&error=access_denied")))
  = "/api/auth/oidc/login".
Proof.
  refine (f_equal (fun r => Gate.location_href (snd r))
            (gate_empty_error_parameter [("error", "access_denied")]
               {| Gate.enabled := true |} "/api/auth/oidc/login" _ _)).
  reflexivity.
Defined.

(** ** More on the cache *)

Section InFlightObjects.
Context {Idp : Type} (v : Variant) (lib : OpenidClient Idp) (env : EnvironmentService).

(** What a second turn comes to. *)
Lemma getClient_resume_of_run discovery (s : Strategy Idp) (w : World Idp) :
  getClient_resume_of v lib env discovery (s, w) =
    match discovery with
    | Returned oidcIssuer =>
        match lib_construct lib oidcIssuer (configured_metadata v env) with
        | Some error =>
            (Threw (UnauthorizedException
                      ("Failed to discover OIDC issuer: " +:+ reported_message error)),
             (s, w))
        | None =>
            let c := handed_out v lib oidcIssuer (configured_metadata v env) in
            (Returned c, ({| client := Some c |}, w))
        end
    | Threw error =>
        (Threw (UnauthorizedException
                  ("Failed to discover OIDC issuer: " +:+ reported_message error)),
         (s, w))
    end.
Proof.
  destruct v; simpl;
    unfold OidcStrategy.getClient_resume, PassportOidc.getClient_resume,
      try_catch, bind, lift, await, new_Client, configured_metadata,
      reported_message; simpl;
    (destruct discovery as [oidcIssuer|error]; simpl;
     [destruct (lib_construct lib oidcIssuer _); simpl|]);
    reflexivity.
Qed.

Lemma step_reachable (p : Process Idp) (e : Event) :
  reachable_of v lib env (object p) -> answered_by_discovery lib env p ->
  reachable_of v lib env (object (step v lib env p e)) /\
  answered_by_discovery lib env (step v lib env p e).
Proof.
  intros Hr Hw. destruct e as [|k]; simpl.
  - destruct (client (object p)) as [c|] eqn:Hc.
    { rewrite (getClient_start_cached v lib env _ (world p) c Hc). now split. }
    destruct (getClient_start_of v lib env (object p, world p))
      as [[outcome|discovery] st'] eqn:Hs.
    + assert (fst st' = object p) as Ho.
      { revert Hs. destruct v; simpl;
          unfold OidcStrategy.getClient_start, PassportOidc.getClient_start; simpl;
          rewrite Hc; (destruct (negb _ || _ || _ || _);
                       [now intros [= _ <-]|]);
          now destruct (Issuer_discover lib _ (world p)). }
      simpl. rewrite Ho. now split.
    + assert (fst st' = object p /\ not_configured env = false /\
              fst (lib_discover lib (narrowed (getOidcIssuer env)) (idp (world p)))
                = discovery) as (Ho & Hn & Hd).
      { revert Hs. unfold not_configured. destruct v; simpl;
          unfold OidcStrategy.getClient_start, PassportOidc.getClient_start; simpl;
          rewrite Hc; (destruct (negb _ || _ || _ || _); [discriminate|]);
          unfold Issuer_discover, logged;
          destruct (lib_discover lib _ (idp (world p))) as [d i];
          now intros [= <- <-]. }
      simpl. rewrite Ho. split; [exact Hr|].
      intros id d. simpl. rewrite lookup_insert.
      destruct (decide (next p = id)) as [_|_]; [|apply Hw].
      intros [= <-]. split; [exact Hn|]. now exists (idp (world p)).
  - destruct (waiting p !! k) as [discovery|] eqn:Hk; [|now split].
    destruct (Hw k discovery Hk) as (Hn & i & Hd).
    rewrite getClient_resume_of_run.
    assert (Hkeep : answered_by_discovery lib env
                      {| object := object p; world := world p;
                         waiting := delete k (waiting p);
                         returned := returned p; next := next p |}).
    { intros id d. simpl. rewrite lookup_delete.
      destruct (decide (k = id)); [discriminate | apply Hw]. }
    destruct discovery as [oidcIssuer|error];
      [destruct (lib_construct lib oidcIssuer (configured_metadata v env)) eqn:Hcons|];
      simpl; (split; [|exact Hkeep]); try exact Hr.
    pose proof (reachable_of_getClient lib env v {| client := None |}
                  {| idp := i; calls := [] |}) as Hnew.
    rewrite (getClient_of_run lib env v {| client := None |}
               {| idp := i; calls := [] |} eq_refl Hn) in Hnew.
    cbn [idp] in Hnew.
    destruct (lib_discover lib (narrowed (getOidcIssuer env)) i) as [d i'].
    simpl in Hd. subst d. cbv beta iota in Hnew. rewrite Hcons in Hnew.
    cbv beta iota zeta in Hnew. cbn [fst snd] in Hnew.
    apply Hnew. destruct v; simpl;
      [apply OidcStrategy.reachable_new | apply PassportOidc.reachable_new].
Qed.

(** However calls of [getClient] interleave, the object only goes through
    states that whole calls, one after the other, reach as well. *)
Lemma schedule_reachable (events : list Event) (w : World Idp) :
  reachable_of v lib env
    (object (schedule v lib env events (launched ({| client := None |}, w)))).
Proof.
  assert (H : forall p,
             reachable_of v lib env (object p) -> answered_by_discovery lib env p ->
             reachable_of v lib env (object (schedule v lib env events p))).
  { induction events as [|e events IH]; intros p Hr Hw; [exact Hr|].
    destruct (step_reachable p e Hr Hw) as [Hr' Hw'].
    exact (IH _ Hr' Hw'). }
  apply H.
  - destruct v; simpl;
      [apply OidcStrategy.reachable_new | apply PassportOidc.reachable_new].
  - intros id d. simpl. now rewrite lookup_empty.
Qed.

End InFlightObjects.


(** X17: the Passport variant caches the same way: once a call of its
    [getClient] has returned a client and no other call is waiting for its
    discovery, the object and the world stay as they are whatever calls
    follow, and every one of them returns that same client at once, with
    no library call. *)
Theorem passport_getClient_idempotent {Idp} (lib : OpenidClient Idp)
  (env : EnvironmentService) (p0 : Process Idp) (e : Event) (id : nat)
  (c : Client Idp) (later : list Event) :
  let p := step Passport lib env p0 e in
  returned p = returned p0 ++ [(id, Returned c)] ->
  waiting p = ∅ ->
  let p' := schedule Passport lib env later p in
  client (object p) = Some c /\
  object p' = object p /\
  world p' = world p /\
  waiting p' = ∅ /\
  returned p' =
    returned p ++
    map (fun k => (k, Returned c))
      (seq (next p)
         (length (List.filter
                    (fun e => match e with Call => true | Resume _ => false end)
                    later))).
Proof.
  intros p Hret Hwait p'.
  pose proof (step_returned_cached Passport lib env p0 e id c Hret) as Hc.
  fold p in Hc. split; [exact Hc|].
  exact (schedule_cache_stable Passport lib env later p c Hc Hwait).
Qed.

Lemma passport_getClient_idempotent_witness :
  let c := handed_out Passport Rotating.lib (Rotating.metadata 1)
             (configured_metadata Passport Sample.env) in
  let p0 := schedule Passport Rotating.lib Sample.env [Call; Call; Resume 0]
              (launched Rotating.fresh) in
  let p := step Passport Rotating.lib Sample.env p0 (Resume 1) in
  let p' := schedule Passport Rotating.lib Sample.env [Call; Call] p in
  world p' =
    {| idp := 2;
       calls := [CallDiscover "https://idp.example";
                 CallDiscover "https://idp.example"] |} /\
  snd <$> returned p' =
    [Returned (handed_out Passport Rotating.lib (Rotating.metadata 0)
                 (configured_metadata Passport Sample.env));
     Returned c; Returned c; Returned c].
Proof.
  intros c p0 p p'.
  destruct (passport_getClient_idempotent Rotating.lib Sample.env p0 (Resume 1) 1 c
              [Call; Call]) as (_ & _ & Hw & _ & Hr).
  - reflexivity.
  - reflexivity.
  - split; [exact Hw | exact (f_equal (fmap snd) Hr)].
Defined.


(** X18: when discovery throws a value that is not an [Error] (a string, a
    number, [null]), [getClient] has no message to quote and reports
    [Failed to discover OIDC issuer: Unknown error]; the cache stays unset.
    Both variants. *)
Theorem getClient_unknown_error {Idp} (v : Variant) (lib : OpenidClient Idp)
  (env : EnvironmentService) (s : Strategy Idp) (w : World Idp)
  (value : JsValue) (i : Idp) :
  client s = None ->
  not_configured env = false ->
  lib_discover lib (narrowed (getOidcIssuer env)) (idp w) = (Threw (NonError value), i) ->
  getClient_of v lib env (s, w) =
    (Threw (UnauthorizedException "Failed to discover OIDC issuer: Unknown error"),
     (s, {| idp := i;
            calls := calls w ++ [CallDiscover (narrowed (getOidcIssuer env))] |})).
Proof.
  intros Hc Hn Hd.
  rewrite (getClient_of_run lib env v s w Hc Hn), Hd. reflexivity.
Qed.

(** X19: [validate] changes the object only through its [getClient]: the
    cache after [validate] is the cache after [getClient] alone, whether
    userinfo answered, threw, or left out the [email]. In particular a
    rejected user does not empty the cache. Both variants. *)
Theorem validate_object {Idp} (v : Variant) (lib : OpenidClient Idp)
  (env : EnvironmentService) (tokenSet : TokenSet)
  (st : Strategy Idp * World Idp) :
  fst (snd (validate_of v lib env tokenSet st)) =
  fst (snd (getClient_of v lib env st)).
Proof.
  rewrite validate_of_unfold.
  destruct (getClient_of v lib env st) as [[c|e] st1]; [|reflexivity].
  destruct (userinfo c (access_token tokenSet) (snd st1)) as [[claims|e] w2];
    reflexivity.
Qed.

Lemma getClient_unknown_error_witness :
  PassportOidc.getClient Sample2.lib_throwing_string Sample.env
    (Sample.fresh, Sample.up)
  = (Threw (UnauthorizedException "Failed to discover OIDC issuer: Unknown error"),
     (Sample.fresh,
      {| idp := true; calls := [CallDiscover "https://idp.example"] |})).
Proof.
  refine (getClient_unknown_error Passport Sample2.lib_throwing_string Sample.env
            Sample.fresh Sample.up (JsStr "timeout") true _ _ _); reflexivity.
Defined.
